(** * notebooks/utils.py: plotting helpers of the Hopfield-network notebooks

    A shallow embedding of the data that [notebooks/utils.py] computes before
    it hands anything to the plotting library, and the properties of that
    data.

    Conventions of the embedding:
    - Python [int]s are [Z]; [len] results are [Z.of_nat] of a list length.
    - A Python exception is a value of [exn]; a computation that may raise
      returns a [result].
    - numpy arrays live in a store ([heap]) and are passed by reference
      ([loc]), so that in-place slice assignment and aliasing are visible.
    - Pattern and state arrays hold integers (the +1/-1 activations of a
      Hopfield network).  Similarities and energies are real-valued in the
      notebook; they are embedded as exact rationals ([Q]), i.e. binary
      floating point is idealised by exact arithmetic.
    - Calls into matplotlib only consume data; they are represented by the
      data handed to them. *)

From Stdlib Require Import ZArith QArith Qabs Lqa Znumtheory.
From stdpp Require Import gmap strings list fin_maps.

Local Open Scope Z_scope.

(** ** Python exceptions and results *)

Inductive exn : Set :=
  | IndexError
  | ValueError
  | KeyError
  | ZeroDivisionError
  | ReferenceError.

Inductive result (A : Type) : Type :=
  | Ok (a : A)
  | Raise (e : exn).
Arguments Ok {A} a.
Arguments Raise {A} e.

Definition rbind {A B} (r : result A) (k : A → result B) : result B :=
  match r with
  | Ok a => k a
  | Raise e => Raise e
  end.

Global Instance result_ret : MRet result := λ A a, Ok a.
Global Instance result_bind : MBind result := λ A B k r, rbind r k.

(** ** Python built-ins used by the module *)

Module Py.

(** [len(l)] *)
Definition len {A} (l : list A) : Z := Z.of_nat (length l).

(** [range(lo, hi)] *)
Definition range (lo hi : Z) : list Z := seqZ lo (hi - lo).

(** [max(it)] over integers: [ValueError] on an empty iterable. *)
Definition max (l : list Z) : result Z :=
  match l with
  | [] => Raise ValueError
  | x :: l' => Ok (foldl Z.max x l')
  end.

(** [max(it)] and [min(it)] over real values.  Both keep the first of
    several equal extrema: the running value is replaced only by a strictly
    better one. *)
Definition Qlt_bool (x y : Q) : bool := if Qlt_le_dec x y then true else false.

Definition maxQ (l : list Q) : result Q :=
  match l with
  | [] => Raise ValueError
  | x :: l' => Ok (foldl (λ m y, if Qlt_bool m y then y else m) x l')
  end.

Definition minQ (l : list Q) : result Q :=
  match l with
  | [] => Raise ValueError
  | x :: l' => Ok (foldl (λ m y, if Qlt_bool y m then y else m) x l')
  end.

(** [int(a / b)] for integers [a], [b]: true division followed by
    truncation towards zero. *)
Definition int_div (a b : Z) : result Z :=
  if decide (b = 0) then Raise ZeroDivisionError else Ok (a `quot` b).

(** [l[i]] for a sequence: a negative index counts from the end, and an
    index outside [-len, len) raises [IndexError]. *)
Definition getitem {A} (l : list A) (i : Z) : result A :=
  let j := if decide (i < 0) then i + len l else i in
  if decide (0 ≤ j < len l) then
    match l !! Z.to_nat j with
    | Some x => Ok x
    | None => Raise IndexError
    end
  else Raise IndexError.

(** Bounds of the slice [l[start:stop]] (step 1) on a sequence of length
    [n], as computed by [slice.indices]: [None] is an omitted bound,
    negative bounds count from the end, and everything is clamped to
    [0, n]. *)
Definition clamp (n : Z) (i : Z) : Z :=
  if decide (i < 0) then Z.max (i + n) 0 else Z.min i n.

Record slice : Set := Slice { start : option Z; stop : option Z }.

Definition slice_lo (s : slice) (n : Z) : Z := from_option (clamp n) 0 (start s).
Definition slice_hi (s : slice) (n : Z) : Z := from_option (clamp n) n (stop s).

Definition in_slice (s : slice) (n : Z) (i : nat) : bool :=
  bool_decide (slice_lo s n ≤ Z.of_nat i < slice_hi s n).

(** [l[start:stop]] *)
Definition getslice {A} (l : list A) (s : slice) : list A :=
  let lo := Z.to_nat (slice_lo s (len l)) in
  let hi := Z.to_nat (slice_hi s (len l)) in
  take (hi - lo)%nat (drop lo l).

End Py.

(** ** plot_patterns: the grid shape (lines 17-21) *)

(** [int(np.sqrt(N) + 1)]: the square root is taken on a non-negative
    integer; its integer part is [Z.sqrt]. *)
Definition int_sqrt_plus_1 (N : Z) : Z := Z.sqrt N + 1.

(** [grid_size = max(i for i in range(1, int(np.sqrt(N) + 1)) if N % i == 0)] *)
Definition grid_size (N : Z) : result Z :=
  Py.max (filter (λ i, N `mod` i = 0) (Py.range 1 (int_sqrt_plus_1 N))).

(** [grid_shape = [grid_size, int(N / grid_size)]; grid_shape.sort();
    grid_shape = tuple(grid_shape)] *)
Definition sort2 (a b : Z) : Z * Z := if decide (a ≤ b) then (a, b) else (b, a).

Definition grid_shape (N : Z) : result (Z * Z) :=
  g ← grid_size N;
  Ok (sort2 g (N `quot` g)).

(** ** numpy arrays *)

(** A two-dimensional integer array: its shape and its rows. *)
Record ndarray : Set := NDArray {
  shape0 : nat;
  shape1 : nat;
  cells : list (list Z)
}.

(** Every array that numpy builds is rectangular. *)
Definition wf_ndarray (a : ndarray) : Prop :=
  length (cells a) = shape0 a ∧ Forall (λ row, length row = shape1 a) (cells a).

(** Lines 17-21 of [plot_patterns]; [patterns] is the dict, in insertion
    order. *)
Definition plot_patterns_grid_shape (patterns : list (string * ndarray))
    : result (Z * Z) :=
  let N := Py.len patterns in
  grid_shape N.

(** [a[i, j]] for in-range non-negative [i], [j]. *)
Definition cell (a : ndarray) (i j : nat) : option Z :=
  row ← cells a !! i; row !! j.

Module Np.

(** [np.zeros_like(a)] *)
Definition zeros_like (a : ndarray) : ndarray :=
  NDArray (shape0 a) (shape1 a) (replicate (shape0 a) (replicate (shape1 a) 0)).

(** [a[rs, cs] = v] for two slices and a scalar [v]: the array after the
    assignment. *)
Definition fill (rs cs : Py.slice) (v : Z) (a : ndarray) : ndarray :=
  let h := Z.of_nat (shape0 a) in
  let w := Z.of_nat (shape1 a) in
  NDArray (shape0 a) (shape1 a)
    (imap (λ i row,
       if Py.in_slice rs h i
       then imap (λ j x, if Py.in_slice cs w j then v else x) row
       else row) (cells a)).

(** Broadcasting of one dimension: equal extents, or one of them is 1. *)
Definition broadcast_dim (m n : nat) : result nat :=
  if decide (m = n) then Ok m
  else if decide (m = 1%nat) then Ok n
  else if decide (n = 1%nat) then Ok m
  else Raise ValueError.

Definition stretch {A} (n : nat) (l : list A) : list A :=
  if decide (length l = n) then l
  else match l with
       | [x] => replicate n x
       | _ => l
       end.

Definition broadcast_to (h w : nat) (a : ndarray) : list (list Z) :=
  stretch h (stretch w <$> cells a).

(** Element-wise binary operation [a op b] with broadcasting. *)
Definition binop (op : Z → Z → Z) (a b : ndarray) : result ndarray :=
  h ← broadcast_dim (shape0 a) (shape0 b);
  w ← broadcast_dim (shape1 a) (shape1 b);
  Ok (NDArray h w
        (zip_with (zip_with op) (broadcast_to h w a) (broadcast_to h w b))).

Definition multiply : ndarray → ndarray → result ndarray := binop Z.mul.
Definition add : ndarray → ndarray → result ndarray := binop Z.add.

(** [v.reshape((h, w))] of a flat vector, row-major. *)
Fixpoint chunks (h w : nat) (v : list Z) : list (list Z) :=
  match h with
  | O => []
  | S h' => take w v :: chunks h' w (drop w v)
  end.

Definition reshape (v : list Z) (shape : nat * nat) : result ndarray :=
  if decide (length v = (shape.1 * shape.2)%nat)
  then Ok (NDArray shape.1 shape.2 (chunks shape.1 shape.2 v))
  else Raise ValueError.

(** [np.abs] on a vector of reals. *)
Definition abs (v : list Q) : list Q := Qabs <$> v.

(** [np.argmax(v)]: one pass that moves to index [i] only when [v[i]] is
    strictly greater than the running maximum, so the first occurrence of
    the maximum is returned; an empty [v] raises [ValueError]. *)
Fixpoint argmax_from (best : nat) (m : Q) (i : nat) (v : list Q) : nat :=
  match v with
  | [] => best
  | x :: v' =>
      if Py.Qlt_bool m x then argmax_from i x (S i) v'
      else argmax_from best m (S i) v'
  end.

Definition argmax (v : list Q) : result nat :=
  match v with
  | [] => Raise ValueError
  | x :: v' => Ok (argmax_from 0 x 1 v')
  end.

(** [np.argmin(v)], likewise with the first occurrence of the minimum. *)
Fixpoint argmin_from (best : nat) (m : Q) (i : nat) (v : list Q) : nat :=
  match v with
  | [] => best
  | x :: v' =>
      if Py.Qlt_bool x m then argmin_from i x (S i) v'
      else argmin_from best m (S i) v'
  end.

Definition argmin (v : list Q) : result nat :=
  match v with
  | [] => Raise ValueError
  | x :: v' => Ok (argmin_from 0 x 1 v')
  end.

(** [np.ptp(v)]: maximum minus minimum. *)
Definition ptp (v : list Q) : result Q :=
  hi ← Py.maxQ v;
  lo ← Py.minQ v;
  Ok (hi - lo)%Q.

(** [np.arange(lo, hi)] *)
Definition arange (lo hi : Z) : list Z := Py.range lo hi.

(** [np.linspace(start, stop, num, dtype=int)]: [num] evenly spaced reals
    from [start] to [stop] inclusive, each rounded down to an integer;
    a single sample is [start]; a negative [num] raises [ValueError]. *)
Definition linspace_int (start stop num : Z) : result (list Z) :=
  if decide (num < 0) then Raise ValueError
  else if decide (num = 1) then Ok [start]
  else Ok ((λ i, start + (i * (stop - start)) `div` (num - 1)) <$> Py.range 0 num).

End Np.

(** ** The store of arrays *)

Abbreviation loc := nat.
Abbreviation heap := (gmap nat ndarray).

(** A computation on the store that may raise. *)
Definition M (A : Type) : Type := heap → result (A * heap).

Global Instance M_ret : MRet M := λ A a σ, Ok (a, σ).
Global Instance M_bind : MBind M := λ A B k m σ,
  match m σ with
  | Ok (a, σ') => k a σ'
  | Raise e => Raise e
  end.

Definition lift {A} (r : result A) : M A := λ σ,
  match r with
  | Ok a => Ok (a, σ)
  | Raise e => Raise e
  end.

(** A new array object. *)
Definition alloc (a : ndarray) : M loc := λ σ,
  let l := fresh (dom σ) in Ok (l, <[l := a]> σ).

Definition load (l : loc) : M ndarray := λ σ,
  match σ !! l with
  | Some a => Ok (a, σ)
  | None => Raise ReferenceError
  end.

(** In-place update of the array object at [l]. *)
Definition update (l : loc) (f : ndarray → ndarray) : M unit := λ σ,
  match σ !! l with
  | Some a => Ok (tt, <[l := f a]> σ)
  | None => Raise ReferenceError
  end.

(** [np.zeros_like(x)] *)
Definition zeros_like (x : loc) : M loc :=
  a ← load x; alloc (Np.zeros_like a).

(** [x.shape] *)
Definition shape (x : loc) : M (Z * Z) :=
  a ← load x; mret (Z.of_nat (shape0 a), Z.of_nat (shape1 a)).

(** [x[rs, cs] = v] *)
Definition setitem (x : loc) (rs cs : Py.slice) (v : Z) : M unit :=
  update x (Np.fill rs cs v).

(** [x * y] and [x + y]: a new array. *)
Definition multiply (x y : loc) : M loc :=
  a ← load x; b ← load y; c ← lift (Np.multiply a b); alloc c.

Definition add (x y : loc) : M loc :=
  a ← load x; b ← load y; c ← lift (Np.add a b); alloc c.

(** [copy.deepcopy(x)]: a new array with the same contents. *)
Definition deepcopy (x : loc) : M loc :=
  a ← load x; alloc a.

(** Running [m] in the store [σ] returns a new array object holding [r], and
    every array object of [σ] still holds what it held before the call. *)
Definition returns_new (m : M loc) (σ : heap) (r : ndarray) : Prop :=
  ∃ l σ', m σ = Ok (l, σ') ∧ σ !! l = None ∧ σ' !! l = Some r ∧
          ∀ k a, σ !! k = Some a → σ' !! k = Some a.

(** ** mask_pattern (lines 247-251) *)

Definition mask_pattern (pattern : loc) : M loc :=
  mask ← zeros_like pattern;
  '(h, w) ← shape pattern;
  _ ← setitem mask (Py.Slice None (Some (h `div` 2))) (Py.Slice None (Some (w `div` 2))) 1;
  multiply pattern mask.

(** ** merge_patterns (lines 254-260) *)

Definition merge_patterns (pattern1 pattern2 : loc) : M loc :=
  pattern1 ← deepcopy pattern1;
  pattern2 ← deepcopy pattern2;
  '(_, w1) ← shape pattern1;
  _ ← setitem pattern1 (Py.Slice None None) (Py.Slice (Some (w1 `div` 2)) None) 0;
  '(_, w2) ← shape pattern2;
  _ ← setitem pattern2 (Py.Slice None None) (Py.Slice None (Some (w2 `div` 2))) 0;
  add pattern1 pattern2.

(** ** The network object (external collaborator)

    Only the attributes that this module reads. *)
Record HopfieldNetwork : Type := {
  history_state : list (list Z);          (* history["state"] *)
  history_similarities : list (list Q);   (* history["similarities"] *)
  history_energy : list Q;                (* history["energy"] *)
  pattern_names : list string;
  pattern_shape : nat * nat;
  N_patterns : nat;
  patterns_dict : gmap string ndarray
}.

(** ** visualise_hopfield_network (lines 40-108) *)

(** What the two panels show. *)
Record Panels : Type := {
  state_image : ndarray;        (* ax[0].imshow(state.reshape(pattern_shape)) *)
  panel_title : string;         (* ax[0].set_title(...) *)
  bar_heights : list Q;         (* ax[1].bar(np.arange(N_patterns), similarities) *)
  best_pattern_id : nat;
  bar_colors : list string;     (* face colour of each bar *)
  inset_image : ndarray;        (* inset_ax.imshow(best_pattern) *)
  inset_anchor : Q * Q          (* lower-left corner of the inset *)
}.

(** [colors[i] = c] on a Python list. *)
Definition list_setitem {A} (l : list A) (i : nat) (x : A) : result (list A) :=
  if decide (i < length l)%nat then Ok (<[i := x]> l) else Raise IndexError.

(** [d[k]] on a dict. *)
Definition dict_getitem {A} (d : gmap string A) (k : string) : result A :=
  match d !! k with
  | Some x => Ok x
  | None => Raise KeyError
  end.

(** [title or dflt]: [None] and the empty string are both false. *)
Definition title_or (title : option string) (dflt : string) : string :=
  match title with
  | Some t => if decide (t = ""%string) then dflt else t
  | None => dflt
  end.

Definition visualise_hopfield_network
    (net : HopfieldNetwork) (steps_back : Z) (title : option string) : result Panels :=
  state ← Py.getitem (history_state net) (- steps_back - 1);
  similarities ← Py.getitem (history_similarities net) (- steps_back - 1);
  image ← Np.reshape state (pattern_shape net);
  best_pattern_id ← Np.argmax (Np.abs similarities);
  name ← Py.getitem (pattern_names net) (Z.of_nat best_pattern_id);
  best_pattern ← dict_getitem (patterns_dict net) name;
  colors ← list_setitem (replicate (N_patterns net) "C0"%string) best_pattern_id "blue"%string;
  s ← Py.getitem similarities (Z.of_nat best_pattern_id);
  Ok {| state_image := image;
        panel_title := title_or title "Network activity pattern";
        bar_heights := similarities;
        best_pattern_id := best_pattern_id;
        bar_colors := colors;
        inset_image := best_pattern;
        inset_anchor := (inject_Z (Z.of_nat best_pattern_id) + (1 # 2),
                         (1 # 2) - (1 - s))%Q |}.

(** What the collaborator promises (spec of the network object): one
    state and one similarity vector per recorded step, states of
    [pattern_shape] size, one similarity and one name per stored pattern,
    at least one pattern, and every name a key of [patterns_dict]. *)
Definition wf_network (net : HopfieldNetwork) : Prop :=
  length (history_similarities net) = length (history_state net) ∧
  Forall (λ s, length s = ((pattern_shape net).1 * (pattern_shape net).2)%nat)
         (history_state net) ∧
  Forall (λ s, length s = N_patterns net) (history_similarities net) ∧
  length (pattern_names net) = N_patterns net ∧
  (0 < N_patterns net)%nat ∧
  Forall (λ name, is_Some (patterns_dict net !! name)) (pattern_names net).

(** A small network with two stored 2x2 patterns and four recorded steps;
    at the last step both patterns tie on absolute similarity. *)
Definition demo_network : HopfieldNetwork :=
  {| history_state := [[-1; 1; 1; 1]; [1; 1; 1; 1]; [1; -1; 1; -1]; [-1; -1; 1; 1]];
     history_similarities :=
       [[0 # 1; 1 # 2]; [1 # 2; -1 # 4]; [1 # 3; -2 # 3]; [-1 # 1; 1 # 1]]%Q;
     history_energy := [100 # 1; 99 # 1; 98 # 1; 0 # 1]%Q;
     pattern_names := ["a"; "b"]%string;
     pattern_shape := (2, 2)%nat;
     N_patterns := 2;
     patterns_dict :=
       {[ "a"%string := NDArray 2 2 [[1; 1]; [1; 1]];
          "b"%string := NDArray 2 2 [[1; -1]; [1; -1]] ]} |}.

(** ** plot_energy (lines 110-212) *)

(** Lines 114-118: the number of steps, the energies plotted and the step
    axis. *)
Definition energy_series (net : HopfieldNetwork) (n_steps : option Z)
    : Z * list Q * list Z :=
  let n_steps := default (Py.len (history_energy net) - 2) n_steps in
  let energy := Py.getslice (history_energy net) (Py.Slice (Some (- n_steps - 1)) None) in
  let t := Np.arange (- n_steps - 1) 0 in
  (n_steps, energy, t).

(** Lines 150-152 (with [k = 1]) and 175-177 (with [k = 2]):
    [count = np.argmin(np.abs(np.array(energy) - (max(energy) - k * np.ptp(energy) / 3)))],
    replaced by [int(k * n_steps / 3)] when it is 0. *)
Definition inset_target (energy : list Q) (k : Z) : result Q :=
  hi ← Py.maxQ energy;
  range ← Np.ptp energy;
  Ok (hi - inject_Z k * range / 3)%Q.

Definition inset_located (energy : list Q) (k : Z) : result nat :=
  target ← inset_target energy k;
  Np.argmin (Np.abs ((λ e, e - target)%Q <$> energy)).

Definition inset_count (energy : list Q) (n_steps : Z) (k : Z) : result Z :=
  count ← inset_located energy k;
  if decide (count = 0%nat) then Py.int_div (k * n_steps) 3
  else Ok (Z.of_nat count).

(** The data that determine the plot: the series and, for each of the
    four insets, its index into [energy] and the state it shows. *)
Record EnergyPlot : Type := {
  ep_n_steps : Z;
  ep_energy : list Q;
  ep_t : list Z;
  ep_ylim : Q * Q;
  ep_counts : Z * Z;                      (* the "1/3" and "2/3" indices *)
  ep_colours : Q * Q;                     (* their positions on the colour map *)
  ep_inset_energies : Q * Q * Q * Q;
  ep_inset_states : ndarray * ndarray * ndarray * ndarray
}.

(** [ax.scatter(t, energy)] and [ax.plot(t, energy)] reject series of
    different lengths. *)
Definition same_size {A B} (x : list A) (y : list B) : result unit :=
  if decide (length x = length y) then Ok tt else Raise ValueError.

Definition state_at (net : HopfieldNetwork) (i : Z) : result ndarray :=
  state ← Py.getitem (history_state net) i;
  Np.reshape state (pattern_shape net).

(** [count / n_steps], the colour-map position of an inset border.  The
    division is reached with [n_steps = 0] only when [energy] has a single
    value, hence with the Python integer [int(k * n_steps / 3)] as [count],
    and raises. *)
Definition colour_position (count n_steps : Z) : result Q :=
  if decide (n_steps = 0) then Raise ZeroDivisionError
  else Ok (inject_Z count / inject_Z n_steps)%Q.

Definition plot_energy (net : HopfieldNetwork) (n_steps : option Z) : result EnergyPlot :=
  let '(n_steps, energy, t) := energy_series net n_steps in
  _ ← same_size t energy;
  lo ← Py.minQ energy;
  hi ← Py.maxQ energy;
  e_first ← Py.getitem energy 0;
  s_first ← state_at net (- n_steps - 1);
  count1 ← inset_count energy n_steps 1;
  e_second ← Py.getitem energy count1;
  s_second ← state_at net (- n_steps - 1 + count1);
  c_second ← colour_position count1 n_steps;
  count2 ← inset_count energy n_steps 2;
  e_third ← Py.getitem energy count2;
  s_third ← state_at net (- n_steps - 1 + count2);
  c_third ← colour_position count2 n_steps;
  e_last ← Py.getitem energy (-1);
  s_last ← state_at net (-1);
  Ok {| ep_n_steps := n_steps;
        ep_energy := energy;
        ep_t := t;
        ep_ylim := (lo - 5, hi + 5)%Q;
        ep_counts := (count1, count2);
        ep_colours := (c_second, c_third);
        ep_inset_energies := (e_first, e_second, e_third, e_last);
        ep_inset_states := (s_first, s_second, s_third, s_last) |}.








(** ** animate_hopfield_network (lines 215-244)

    The function is called with integer arguments, as its defaults are; the
    [int] of an integer product is that product. *)

Record Animation : Type := {
  n_frames : Z;
  frames : list (Z * Z);     (* per frame: the steps_back rendered, the step number in the title *)
  interval : Q               (* milliseconds between frames *)
}.

(** The callback [animate(i, fig, ax)]. *)
Definition animate (n_steps : Z) (steps_back_to_plot : list Z) (i : Z) : result (Z * Z) :=
  step ← Py.getitem steps_back_to_plot i;
  Ok (n_steps - step, step).

Fixpoint for_each {A B} (f : A → result B) (l : list A) : result (list B) :=
  match l with
  | [] => Ok []
  | x :: l' => y ← f x; ys ← for_each f l'; Ok (y :: ys)
  end.

Definition animate_hopfield_network (n_steps fps animation_length_secs : Z)
    : result Animation :=
  let n_frames := animation_length_secs * fps in
  steps_back_to_plot ← Np.linspace_int 0 n_steps n_frames;
  interval ← (if decide (fps = 0) then Raise ZeroDivisionError
              else Ok (1000 / inject_Z fps)%Q);
  drawn ← for_each (animate n_steps steps_back_to_plot) (Py.range 0 n_frames);
  Ok {| n_frames := n_frames; frames := drawn; interval := interval |}.


(** ** Compositions of the pattern transforms *)

(** [mask_pattern(mask_pattern(p))] *)
Definition mask_twice (pattern : loc) : M loc :=
  masked ← mask_pattern pattern;
  mask_pattern masked.

(** [mask_pattern(merge_patterns(p1, p2))] *)
Definition mask_of_merge (pattern1 pattern2 : loc) : M loc :=
  merged ← merge_patterns pattern1 pattern2;
  mask_pattern merged.

(** [merge_patterns(merge_patterns(a, b), merge_patterns(c, d))] *)
Definition merge_of_merges (a b c d : loc) : M loc :=
  left_part ← merge_patterns a b;
  right_part ← merge_patterns c d;
  merge_patterns left_part right_part.

(** The energy [e] and the state image [s] are those recorded [k] steps
    before the latest entry of their histories. *)
Definition recorded_back (net : HopfieldNetwork) (k : Z) (e : Q) (s : ndarray) : Prop :=
  ∃ state,
    history_energy net !! Z.to_nat (Py.len (history_energy net) - 1 - k) = Some e ∧
    history_state net !! Z.to_nat (Py.len (history_state net) - 1 - k) = Some state ∧
    Np.reshape state (pattern_shape net) = Ok s.

(** ** plot_patterns: laying the patterns out (lines 22-37)

    [patterns] is the dict as its list of items, in insertion order.  The
    drawing calls on the non-empty 2-D patterns themselves are taken to
    succeed; what is kept of them is which pattern goes, under which title,
    into which cell of the grid. *)

(** Ways [plot_patterns] fails: with a Python exception of the grid
    computation or of the placement loop, or with the [AttributeError] of
    [axs.reshape] when [plt.subplots(1, 1)] has returned a single Axes
    object rather than an array of them. *)
Inductive plot_patterns_error : Set :=
  | PyError (e : exn)
  | AttributeError.

(** [d[k]] on the items of a dict. *)
Fixpoint items_getitem {A} (d : list (string * A)) (k : string) : result A :=
  match d with
  | [] => Raise KeyError
  | (k', v) :: d' => if decide (k' = k) then Ok v else items_getitem d' k
  end.

Record PatternGrid : Type := {
  axes_shape : Z * Z;
  axes_cells : list (list (string * ndarray))   (* per cell: title and image *)
}.

(** The body of the double loop (lines 29-34) at cell [(i, j)]. *)
Definition place (patterns : list (string * ndarray)) (cols i j : Z)
    : result (string * ndarray) :=
  name ← Py.getitem (patterns.*1) (i * cols + j);
  pattern ← items_getitem patterns name;
  Ok (name, pattern).

Definition plot_patterns (patterns : list (string * ndarray))
    : plot_patterns_error + PatternGrid :=
  match plot_patterns_grid_shape patterns with
  | Raise e => inl (PyError e)
  | Ok (rows, cols) =>
      if decide (rows = 1 ∧ cols = 1) then inl AttributeError
      else
        match for_each (λ i, for_each (place patterns cols i) (Py.range 0 cols))
                       (Py.range 0 rows) with
        | Raise e => inl (PyError e)
        | Ok cells => inr {| axes_shape := (rows, cols); axes_cells := cells |}
        end
  end.

Global Instance ndarray_inhabited : Inhabited ndarray := populate (NDArray 0 0 []).

(** * Properties *)

(** ** Python built-ins *)

Lemma elem_of_range (lo hi x : Z) : x ∈ Py.range lo hi ↔ lo ≤ x < hi.
Proof. unfold Py.range. rewrite elem_of_seqZ. lia. Qed.

Lemma foldl_Zmax_spec (l : list Z) (x : Z) :
  let m := foldl Z.max x l in
  x ≤ m ∧ (∀ y, y ∈ l → y ≤ m) ∧ (m = x ∨ m ∈ l).
Proof.
  revert x. induction l as [|a l IH]; intros x; simpl.
  - split; [lia|]. split; [|by left]. intros y Hy. by apply elem_of_nil in Hy.
  - destruct (IH (Z.max x a)) as (H1 & H2 & H3). split; [lia|]. split.
    + intros y [->|Hy]%elem_of_cons; [lia|by apply H2].
    + destruct H3 as [H3|H3]; [|right; by apply elem_of_cons; right].
      destruct (Z.max_spec x a) as [[_ E]|[_ E]].
      * right. apply elem_of_cons. left. lia.
      * left. lia.
Qed.

Lemma Py_max_spec (l : list Z) :
  l ≠ [] → ∃ m, Py.max l = Ok m ∧ m ∈ l ∧ ∀ y, y ∈ l → y ≤ m.
Proof.
  destruct l as [|x l]; [done|]. intros _. simpl.
  pose proof (foldl_Zmax_spec l x) as H. cbv zeta in H.
  destruct H as (H1 & H2 & H3).
  exists (foldl Z.max x l). split; [reflexivity|]. split.
  - apply elem_of_cons. destruct H3 as [H3|H3]; [by left|by right].
  - intros y [->|Hy]%elem_of_cons; [done|by apply H2].
Qed.

(** ** plot_patterns *)

Section grid.
Variable N : Z.
Hypothesis N_pos : 1 ≤ N.

Lemma sqrt_ge_1 : 1 ≤ Z.sqrt N.
Proof. change 1 with (Z.sqrt 1) at 1. by apply Z.sqrt_le_mono. Qed.

Lemma candidate_iff (d : Z) :
  d ∈ filter (λ i, N `mod` i = 0) (Py.range 1 (int_sqrt_plus_1 N))
  ↔ 1 ≤ d ∧ (d | N) ∧ d * d ≤ N.
Proof.
  rewrite list_elem_of_filter, elem_of_range. unfold int_sqrt_plus_1.
  split.
  - intros (Hm & H1 & H2). split; [done|]. split.
    + apply Z.mod_divide; [lia|done].
    + apply Z.sqrt_le_square; lia.
  - intros (H1 & Hd & H2). split.
    + apply Z.mod_divide; [lia|done].
    + split; [done|]. apply Z.sqrt_le_square in H2; lia.
Qed.

Lemma grid_size_spec :
  ∃ g, grid_size N = Ok g ∧ (1 ≤ g ∧ (g | N) ∧ g * g ≤ N) ∧
       ∀ d, 1 ≤ d → (d | N) → d * d ≤ N → d ≤ g.
Proof.
  unfold grid_size.
  destruct (Py_max_spec (filter (λ i, N `mod` i = 0) (Py.range 1 (int_sqrt_plus_1 N))))
    as (g & Hg & Hin & Hmax).
  { intros E. assert (H : 1 ∈ filter (λ i, N `mod` i = 0) (Py.range 1 (int_sqrt_plus_1 N))).
    { apply candidate_iff. split; [lia|]. split; [apply Z.divide_1_l|lia]. }
    rewrite E in H. by apply elem_of_nil in H. }
  exists g. split; [done|]. split; [by apply candidate_iff|].
  intros d H1 H2 H3. apply Hmax, candidate_iff. done.
Qed.

Lemma grid_shape_spec :
  ∃ rows cols, grid_shape N = Ok (rows, cols) ∧ grid_size N = Ok rows ∧
    rows * cols = N ∧ rows ≤ cols.
Proof.
  destruct grid_size_spec as (g & Hg & (H1 & [q Hq] & H2) & _).
  exists g, q. unfold grid_shape. rewrite Hg. cbn.
  assert (Hquot : N `quot` g = q).
  { rewrite Z.quot_div_nonneg by lia. subst N. apply Z.div_mul. lia. }
  rewrite Hquot. unfold sort2.
  destruct (decide (g ≤ q)) as [Hle|Hgt]; [|nia].
  split; [done|]. split; [done|]. split; [lia|done].
Qed.
End grid.

(** C1. For a non-empty pattern mapping of size [N], the grid shape
    [(rows, cols)] computed by [plot_patterns] satisfies [rows * cols = N]
    and [rows <= cols]; [rows] is a divisor of [N] with [rows^2 <= N], and
    every divisor [d] of [N] with [d^2 <= N] is at most [rows].  When [N] is
    prime the shape is [(1, N)], and when [N = 4] it is [(2, 2)]. *)
Theorem plot_patterns_grid_shape_spec (patterns : list (string * ndarray)) :
  patterns ≠ [] →
  let N := Py.len patterns in
  ∃ rows cols,
    plot_patterns_grid_shape patterns = Ok (rows, cols) ∧
    rows * cols = N ∧ rows ≤ cols ∧
    (1 ≤ rows ∧ (rows | N) ∧ rows * rows ≤ N) ∧
    (∀ d, 1 ≤ d → (d | N) → d * d ≤ N → d ≤ rows) ∧
    (prime N → (rows, cols) = (1, N)) ∧
    (N = 4 → (rows, cols) = (2, 2)).
Proof.
  intros Hne N. unfold plot_patterns_grid_shape. fold N.
  assert (HN : 1 ≤ N).
  { unfold N, Py.len. destruct patterns; [done|]. simpl length. lia. }
  destruct (grid_shape_spec N HN) as (rows & cols & Hs & Hg & Hmul & Hle).
  destruct (grid_size_spec N HN) as (g & Hg' & Hdiv & Hmax).
  assert (g = rows) as -> by congruence.
  exists rows, cols. repeat split; try done; try tauto.
  - intros [Hp Hrel]. destruct Hdiv as (H1 & Hd & Hsq).
    assert (rows = 1) as ->; [|f_equal; lia].
    destruct (decide (rows = 1)) as [|Hne1]; [done|].
    destruct (Hrel rows) as [_ _ Hgcd]; [nia|].
    apply Z.divide_1_r_nonneg; [lia|]. apply Hgcd; [apply Z.divide_refl|done].
  - intros H4. rewrite H4 in Hs. vm_compute in Hs. congruence.
Qed.

Lemma plot_patterns_grid_shape_spec_witness :
  let patterns := [("a", NDArray 0 0 []); ("b", NDArray 0 0 [])]%string in
  patterns ≠ [] ∧
  ∃ rows cols,
    plot_patterns_grid_shape patterns = Ok (rows, cols) ∧ rows * cols = 2.
Proof.
  intros patterns. split; [discriminate|].
  destruct (plot_patterns_grid_shape_spec patterns)
    as (rows & cols & H1 & H2 & _); [discriminate|].
  exists rows, cols. split; [exact H1|exact H2].
Defined.

(** ** numpy arrays *)

Lemma cell_is_Some (a : ndarray) (i j : nat) :
  wf_ndarray a → is_Some (cell a i j) ↔ (i < shape0 a)%nat ∧ (j < shape1 a)%nat.
Proof.
  intros [Hh Hw]. unfold cell. split.
  - intros [x Hx]. destruct (cells a !! i) as [row|] eqn:Hrow; [|done].
    simpl in Hx. split.
    + rewrite <- Hh. by eapply lookup_lt_Some.
    + rewrite Forall_forall in Hw. rewrite <- (Hw row).
      * by eapply lookup_lt_Some.
      * by eapply list_elem_of_lookup_2.
  - intros [Hi Hj]. destruct (lookup_lt_is_Some_2 (cells a) i) as [row Hrow]; [lia|].
    rewrite Hrow. simpl. apply lookup_lt_is_Some_2.
    rewrite Forall_forall in Hw. rewrite (Hw row); [done|].
    by eapply list_elem_of_lookup_2.
Qed.

Lemma ndarray_ext (a b : ndarray) :
  wf_ndarray a → wf_ndarray b →
  shape0 a = shape0 b → shape1 a = shape1 b →
  (∀ i j, cell a i j = cell b i j) → a = b.
Proof.
  destruct a as [h w ca], b as [h' w' cb]. intros [Ha Hwa] [Hb Hwb]. simpl in *.
  intros <- <- Hcell. f_equal. apply list_eq. intros i.
  destruct (ca !! i) as [ra|] eqn:Hra.
  - destruct (lookup_lt_is_Some_2 cb i) as [rb Hrb].
    { rewrite Hb, <- Ha. by eapply lookup_lt_Some. }
    rewrite Hrb. f_equal. apply list_eq. intros j.
    specialize (Hcell i j). unfold cell in Hcell. simpl in Hcell.
    by rewrite Hra, Hrb in Hcell.
  - symmetry. apply lookup_ge_None. rewrite Hb, <- Ha. by apply lookup_ge_None.
Qed.

Lemma wf_zeros_like (a : ndarray) : wf_ndarray (Np.zeros_like a).
Proof.
  split; simpl.
  - apply length_replicate.
  - apply Forall_replicate, length_replicate.
Qed.

Lemma cell_zeros_like (a : ndarray) (i j : nat) :
  (i < shape0 a)%nat → (j < shape1 a)%nat → cell (Np.zeros_like a) i j = Some 0.
Proof.
  intros Hi Hj. unfold cell. simpl.
  rewrite lookup_replicate_2 by done. simpl. by rewrite lookup_replicate_2.
Qed.

Lemma wf_fill (rs cs : Py.slice) (v : Z) (a : ndarray) :
  wf_ndarray a → wf_ndarray (Np.fill rs cs v a).
Proof.
  intros [Hh Hw]. split; simpl.
  - by rewrite length_imap.
  - rewrite Forall_lookup in Hw. apply Forall_lookup. intros i row.
    rewrite list_lookup_imap. destruct (cells a !! i) as [r|] eqn:Hr; [|done].
    simpl. intros [= <-]. destruct (Py.in_slice rs _ i).
    + rewrite length_imap. by eapply Hw.
    + by eapply Hw.
Qed.

Lemma cell_fill (rs cs : Py.slice) (v : Z) (a : ndarray) (i j : nat) :
  cell (Np.fill rs cs v a) i j =
  (λ x, if Py.in_slice rs (Z.of_nat (shape0 a)) i && Py.in_slice cs (Z.of_nat (shape1 a)) j
        then v else x) <$> cell a i j.
Proof.
  unfold cell. simpl. rewrite list_lookup_imap.
  destruct (cells a !! i) as [row|]; [|done]. simpl.
  destruct (Py.in_slice rs _ i); simpl; [|by destruct (row !! j)].
  rewrite list_lookup_imap. by destruct (row !! j).
Qed.

Lemma stretch_id {A} (n : nat) (l : list A) : length l = n → Np.stretch n l = l.
Proof. intros H. unfold Np.stretch. by rewrite decide_True. Qed.

Lemma broadcast_to_id (a : ndarray) :
  wf_ndarray a → Np.broadcast_to (shape0 a) (shape1 a) a = cells a.
Proof.
  intros [Hh Hw]. unfold Np.broadcast_to.
  rewrite stretch_id by (by rewrite length_fmap).
  clear Hh. induction Hw as [|row l Hrow _ IH]; [done|].
  rewrite fmap_cons, IH. f_equal. by apply stretch_id.
Qed.

Lemma binop_same_shape (op : Z → Z → Z) (a b : ndarray) :
  wf_ndarray a → wf_ndarray b →
  shape0 b = shape0 a → shape1 b = shape1 a →
  ∃ r, Np.binop op a b = Ok r ∧ wf_ndarray r ∧
       shape0 r = shape0 a ∧ shape1 r = shape1 a ∧
       ∀ i j, cell r i j = (x ← cell a i j; y ← cell b i j; Some (op x y)).
Proof.
  intros Ha Hb E0 E1. unfold Np.binop, Np.broadcast_dim.
  rewrite E0, E1, !decide_True by done. cbn.
  replace (Np.broadcast_to (shape0 a) (shape1 a) b) with (cells b)
    by (rewrite <- E0, <- E1; symmetry; by apply broadcast_to_id).
  rewrite broadcast_to_id by done.
  eexists. split; [reflexivity|].
  destruct Ha as [Hha Hwa], Hb as [Hhb Hwb].
  split; [|split; [done|split; [done|]]].
  - split; simpl.
    + rewrite length_zip_with. lia.
    + apply Forall_lookup. intros i row. rewrite lookup_zip_with.
      destruct (cells a !! i) as [ra|] eqn:Hra; [|done]. simpl.
      destruct (cells b !! i) as [rb|] eqn:Hrb; [|done]. simpl. intros [= <-].
      rewrite Forall_lookup in Hwa, Hwb.
      rewrite length_zip_with, (Hwa _ _ Hra), (Hwb _ _ Hrb). lia.
  - intros i j. unfold cell. simpl. rewrite lookup_zip_with.
    destruct (cells a !! i) as [ra|]; [|done]. simpl.
    destruct (cells b !! i) as [rb|]; simpl.
    + rewrite lookup_zip_with. by destruct (ra !! j).
    + by destruct (ra !! j).
Qed.

(** ** The store *)

Lemma bind_Ok {A B} (m : M A) (k : A → M B) (σ σ' : heap) (a : A) :
  m σ = Ok (a, σ') → (m ≫= k) σ = k a σ'.
Proof. intros H. unfold mbind, M_bind. by rewrite H. Qed.

Lemma fresh_None (σ : heap) : σ !! fresh (dom σ) = None.
Proof. apply not_elem_of_dom, is_fresh. Qed.

Lemma alloc_extends (σ : heap) (a : ndarray) : σ ⊆ <[fresh (dom σ) := a]> σ.
Proof. apply insert_subseteq, fresh_None. Qed.

Lemma load_Ok (σ : heap) (l : loc) (a : ndarray) :
  σ !! l = Some a → load l σ = Ok (a, σ).
Proof. intros H. unfold load. by rewrite H. Qed.

Lemma shape_Ok (σ : heap) (l : loc) (a : ndarray) :
  σ !! l = Some a → shape l σ = Ok ((Z.of_nat (shape0 a), Z.of_nat (shape1 a)), σ).
Proof. intros H. unfold shape. by erewrite bind_Ok by by apply load_Ok. Qed.

Lemma setitem_Ok (σ : heap) (l : loc) (a : ndarray) rs cs v :
  σ !! l = Some a → setitem l rs cs v σ = Ok (tt, <[l := Np.fill rs cs v a]> σ).
Proof. intros H. unfold setitem, update. by rewrite H. Qed.

Lemma deepcopy_Ok (σ : heap) (l : loc) (a : ndarray) :
  σ !! l = Some a →
  deepcopy l σ = Ok (fresh (dom σ), <[fresh (dom σ) := a]> σ).
Proof. intros H. unfold deepcopy. by erewrite bind_Ok by by apply load_Ok. Qed.

Lemma zeros_like_Ok (σ : heap) (l : loc) (a : ndarray) :
  σ !! l = Some a →
  zeros_like l σ = Ok (fresh (dom σ), <[fresh (dom σ) := Np.zeros_like a]> σ).
Proof. intros H. unfold zeros_like. by erewrite bind_Ok by by apply load_Ok. Qed.

Lemma multiply_Ok (σ : heap) (x y : loc) (a b c : ndarray) :
  σ !! x = Some a → σ !! y = Some b → Np.multiply a b = Ok c →
  multiply x y σ = Ok (fresh (dom σ), <[fresh (dom σ) := c]> σ).
Proof.
  intros Hx Hy Hc. unfold multiply.
  erewrite bind_Ok by by apply load_Ok.
  erewrite bind_Ok by by apply load_Ok.
  erewrite bind_Ok; [reflexivity|]. unfold lift. by rewrite Hc.
Qed.

Lemma add_Ok (σ : heap) (x y : loc) (a b c : ndarray) :
  σ !! x = Some a → σ !! y = Some b → Np.add a b = Ok c →
  add x y σ = Ok (fresh (dom σ), <[fresh (dom σ) := c]> σ).
Proof.
  intros Hx Hy Hc. unfold add.
  erewrite bind_Ok by by apply load_Ok.
  erewrite bind_Ok by by apply load_Ok.
  erewrite bind_Ok; [reflexivity|]. unfold lift. by rewrite Hc.
Qed.

(** ** mask_pattern *)

(** The mask built on lines 249-250 for a pattern [p]. *)
Lemma mask_pattern_run (σ : heap) (l : loc) (p r : ndarray) :
  σ !! l = Some p →
  Np.multiply p
    (Np.fill (Py.Slice None (Some (Z.of_nat (shape0 p) `div` 2)))
             (Py.Slice None (Some (Z.of_nat (shape1 p) `div` 2))) 1
             (Np.zeros_like p)) = Ok r →
  returns_new (mask_pattern l) σ r.
Proof.
  intros Hl Hr. unfold returns_new, mask_pattern.
  set (l1 := fresh (dom σ)).
  set (σ1 := <[l1 := Np.zeros_like p]> σ).
  assert (Hl1 : σ !! l1 = None) by apply fresh_None.
  assert (Hne : l1 ≠ l) by congruence.
  assert (Hl' : σ1 !! l = Some p) by (unfold σ1; by rewrite lookup_insert_ne).
  erewrite bind_Ok by by apply zeros_like_Ok. cbv beta. fold l1. fold σ1.
  erewrite bind_Ok by by apply shape_Ok. cbv beta iota.
  erewrite bind_Ok by (apply setitem_Ok; apply lookup_insert_eq). cbv beta.
  set (σ2 := <[l1 := _]> σ1).
  erewrite multiply_Ok; [| |apply lookup_insert_eq|exact Hr].
  2: { unfold σ2. by rewrite lookup_insert_ne. }
  assert (Hsub : σ ⊆ σ2).
  { unfold σ2, σ1. rewrite insert_insert_eq. by apply insert_subseteq. }
  eexists _, _. split; [reflexivity|]. split; [|split].
  - pose proof (fresh_None σ2) as Hf.
    destruct (σ !! fresh (dom σ2)) as [a|] eqn:E; [|done].
    eapply lookup_weaken in E; [|exact Hsub]. congruence.
  - apply lookup_insert_eq.
  - intros k a Hk. eapply lookup_weaken; [exact Hk|].
    etrans; [exact Hsub|]. apply alloc_extends.
Qed.

Lemma in_slice_upto_half (n i : nat) :
  Py.in_slice (Py.Slice None (Some (Z.of_nat n `div` 2))) (Z.of_nat n) i
  = bool_decide (i < n / 2)%nat.
Proof.
  unfold Py.in_slice, Py.slice_lo, Py.slice_hi, Py.clamp.
  cbn [from_option Py.start Py.stop].
  assert (H : Z.of_nat n `div` 2 = Z.of_nat (n / 2)) by (by rewrite Nat2Z.inj_div).
  assert (H' : (n / 2 ≤ n)%nat) by (apply Nat.Div0.div_le_upper_bound; lia).
  rewrite H. rewrite decide_False by lia.
  apply bool_decide_ext. lia.
Qed.

Lemma in_slice_from_half (n i : nat) :
  (i < n)%nat →
  Py.in_slice (Py.Slice (Some (Z.of_nat n `div` 2)) None) (Z.of_nat n) i
  = bool_decide (n / 2 ≤ i)%nat.
Proof.
  intros Hi. unfold Py.in_slice, Py.slice_lo, Py.slice_hi, Py.clamp.
  cbn [from_option Py.start Py.stop].
  assert (H : Z.of_nat n `div` 2 = Z.of_nat (n / 2)) by (by rewrite Nat2Z.inj_div).
  assert (H' : (n / 2 ≤ n)%nat) by (apply Nat.Div0.div_le_upper_bound; lia).
  rewrite H. rewrite decide_False by lia.
  apply bool_decide_ext. lia.
Qed.

Lemma in_slice_all (n i : nat) :
  (i < n)%nat → Py.in_slice (Py.Slice None None) (Z.of_nat n) i = true.
Proof.
  intros Hi. unfold Py.in_slice, Py.slice_lo, Py.slice_hi.
  cbn [from_option Py.start Py.stop]. apply bool_decide_eq_true. lia.
Qed.

(** The product on line 251, for a rectangular pattern. *)
Lemma mask_product (p : ndarray) :
  wf_ndarray p →
  ∃ r, Np.multiply p
         (Np.fill (Py.Slice None (Some (Z.of_nat (shape0 p) `div` 2)))
                  (Py.Slice None (Some (Z.of_nat (shape1 p) `div` 2))) 1
                  (Np.zeros_like p)) = Ok r ∧
       wf_ndarray r ∧ shape0 r = shape0 p ∧ shape1 r = shape1 p ∧
       ∀ i j x, cell p i j = Some x →
         cell r i j =
         Some (if bool_decide (i < shape0 p / 2 ∧ j < shape1 p / 2)%nat then x else 0).
Proof.
  intros Hp.
  destruct (binop_same_shape Z.mul p
              (Np.fill (Py.Slice None (Some (Z.of_nat (shape0 p) `div` 2)))
                       (Py.Slice None (Some (Z.of_nat (shape1 p) `div` 2))) 1
                       (Np.zeros_like p)))
    as (r & Hr & Hwf & H0 & H1 & Hcell); [done|apply wf_fill, wf_zeros_like|done..|].
  exists r. split; [exact Hr|]. split; [done|]. split; [done|]. split; [done|].
  intros i j x Hx. rewrite Hcell, Hx. simpl.
  assert (Hij : (i < shape0 p)%nat ∧ (j < shape1 p)%nat).
  { apply cell_is_Some; [done|]. by eexists. }
  destruct Hij as [Hi Hj].
  rewrite cell_fill, cell_zeros_like by done. simpl.
  rewrite !in_slice_upto_half. f_equal.
  destruct (decide (i < shape0 p / 2)%nat) as [Ha|Ha];
    destruct (decide (j < shape1 p / 2)%nat) as [Hb|Hb].
  - rewrite !bool_decide_eq_true_2 by done. simpl. lia.
  - rewrite (bool_decide_eq_false_2 (j < _)%nat) by done.
    rewrite (bool_decide_eq_false_2 (_ ∧ _)) by tauto.
    rewrite andb_false_r. lia.
  - rewrite (bool_decide_eq_false_2 (i < _)%nat) by done.
    rewrite (bool_decide_eq_false_2 (_ ∧ _)) by tauto. simpl. lia.
  - rewrite (bool_decide_eq_false_2 (i < _)%nat) by done.
    rewrite (bool_decide_eq_false_2 (_ ∧ _)) by tauto. simpl. lia.
Qed.

(** C2. For a pattern [p] of shape [(h, w)] stored at [l], [mask_pattern]
    returns a new array object of the same shape that equals [p] wherever
    the row index is below [h / 2] and the column index is below [w / 2],
    and is zero at every other position; after the call the input object
    still holds [p], as does every other array of the store. *)
Theorem mask_pattern_spec (σ : heap) (l : loc) (p : ndarray) :
  σ !! l = Some p → wf_ndarray p →
  ∃ l' σ' r,
    mask_pattern l σ = Ok (l', σ') ∧
    σ !! l' = None ∧ σ' !! l' = Some r ∧
    σ' !! l = Some p ∧ (∀ k a, σ !! k = Some a → σ' !! k = Some a) ∧
    wf_ndarray r ∧ shape0 r = shape0 p ∧ shape1 r = shape1 p ∧
    ∀ i j x, cell p i j = Some x →
      cell r i j =
      Some (if bool_decide (i < shape0 p / 2 ∧ j < shape1 p / 2)%nat then x else 0).
Proof.
  intros Hl Hp.
  destruct (mask_product p Hp) as (r & Hr & Hwf & H0 & H1 & Hcell).
  destruct (mask_pattern_run σ l p r Hl Hr) as (l' & σ' & Hrun & Hnew & Hres & Hkeep).
  exists l', σ', r. repeat split; try done; try apply Hwf. by apply Hkeep.
Qed.

Lemma mask_pattern_spec_witness :
  let p := NDArray 2 2 [[1; 1]; [1; 1]] in
  let σ : heap := {[ 0%nat := p ]} in
  σ !! 0%nat = Some p ∧ wf_ndarray p ∧
  ∃ l' σ' r, mask_pattern 0%nat σ = Ok (l', σ') ∧ σ' !! l' = Some r ∧
             σ' !! 0%nat = Some p ∧ shape0 r = 2%nat.
Proof.
  intros p σ.
  assert (H1 : σ !! 0%nat = Some p) by reflexivity.
  assert (H2 : wf_ndarray p) by (split; [reflexivity|repeat constructor]).
  split; [exact H1|]. split; [exact H2|].
  destruct (mask_pattern_spec σ 0%nat p H1 H2)
    as (l' & σ' & r & Hrun & _ & Hr & Hp & _ & _ & Hs & _).
  exists l', σ', r. split; [exact Hrun|]. split; [exact Hr|]. split; [exact Hp|exact Hs].
Defined.

Lemma cell_None (a : ndarray) (i j : nat) :
  wf_ndarray a → ¬ ((i < shape0 a)%nat ∧ (j < shape1 a)%nat) → cell a i j = None.
Proof.
  intros Ha Hij. apply eq_None_not_Some. intros H. by apply cell_is_Some in H.
Qed.

(** C10. For a pattern with fewer than two rows or fewer than two columns,
    [mask_pattern] returns the all-zero array of the same shape. *)
Theorem mask_pattern_thin (σ : heap) (l : loc) (p : ndarray) :
  σ !! l = Some p → wf_ndarray p →
  (shape0 p < 2 ∨ shape1 p < 2)%nat →
  ∃ l' σ',
    mask_pattern l σ = Ok (l', σ') ∧
    σ' !! l' =
      Some (NDArray (shape0 p) (shape1 p) (replicate (shape0 p) (replicate (shape1 p) 0))).
Proof.
  intros Hl Hp Hthin.
  destruct (mask_product p Hp) as (r & Hr & Hwf & H0 & H1 & Hcell).
  destruct (mask_pattern_run σ l p r Hl Hr) as (l' & σ' & Hrun & _ & Hres & _).
  exists l', σ'. split; [exact Hrun|]. rewrite Hres. f_equal.
  change (NDArray _ _ _) with (Np.zeros_like p).
  apply ndarray_ext; [done|apply wf_zeros_like|done..|].
  intros i j.
  destruct (decide ((i < shape0 p)%nat ∧ (j < shape1 p)%nat)) as [[Hi Hj]|Hout].
  - destruct (proj2 (cell_is_Some p i j Hp) (conj Hi Hj)) as [x Hx].
    rewrite (Hcell _ _ _ Hx), cell_zeros_like by done.
    rewrite bool_decide_eq_false_2; [done|].
    intros [Ha Hb]. destruct Hthin as [Ht|Ht].
    + rewrite (Nat.div_small (shape0 p) 2) in Ha by done. lia.
    + rewrite (Nat.div_small (shape1 p) 2) in Hb by done. lia.
  - rewrite (cell_None r) by (by rewrite ?H0, ?H1).
    rewrite (cell_None (Np.zeros_like p)) by (by auto using wf_zeros_like). done.
Qed.

Lemma mask_pattern_thin_witness :
  let p := NDArray 1 3 [[7; 8; 9]] in
  let σ : heap := {[ 0%nat := p ]} in
  σ !! 0%nat = Some p ∧ wf_ndarray p ∧ (shape0 p < 2 ∨ shape1 p < 2)%nat ∧
  ∃ l' σ', mask_pattern 0%nat σ = Ok (l', σ') ∧
           σ' !! l' = Some (NDArray 1 3 [[0; 0; 0]]).
Proof.
  intros p σ.
  assert (H1 : σ !! 0%nat = Some p) by reflexivity.
  assert (H2 : wf_ndarray p) by (split; [reflexivity|repeat constructor]).
  assert (H3 : (shape0 p < 2 ∨ shape1 p < 2)%nat) by (left; simpl; lia).
  split; [exact H1|]. split; [exact H2|]. split; [exact H3|].
  exact (mask_pattern_thin σ 0%nat p H1 H2 H3).
Defined.

(** ** merge_patterns *)

Lemma merge_patterns_run (σ : heap) (l1 l2 : loc) (p1 p2 r : ndarray) :
  σ !! l1 = Some p1 → σ !! l2 = Some p2 →
  Np.add
    (Np.fill (Py.Slice None None)
             (Py.Slice (Some (Z.of_nat (shape1 p1) `div` 2)) None) 0 p1)
    (Np.fill (Py.Slice None None)
             (Py.Slice None (Some (Z.of_nat (shape1 p2) `div` 2))) 0 p2) = Ok r →
  returns_new (merge_patterns l1 l2) σ r.
Proof.
  intros Hl1 Hl2 Hr. unfold returns_new, merge_patterns.
  set (c1 := fresh (dom σ)).
  set (σ1 := <[c1 := p1]> σ).
  set (c2 := fresh (dom σ1)).
  set (σ2 := <[c2 := p2]> σ1).
  assert (Hc1 : σ !! c1 = None) by apply fresh_None.
  assert (Hc2 : σ1 !! c2 = None) by apply fresh_None.
  assert (Hc12 : c1 ≠ c2).
  { intros E. rewrite <- E in Hc2. unfold σ1 in Hc2. by rewrite lookup_insert_eq in Hc2. }
  assert (Hc2' : σ !! c2 = None).
  { unfold σ1 in Hc2. by rewrite lookup_insert_ne in Hc2. }
  erewrite bind_Ok by by apply deepcopy_Ok. cbv beta. fold c1. fold σ1.
  erewrite bind_Ok.
  2: { apply deepcopy_Ok. unfold σ1. rewrite lookup_insert_ne by congruence. exact Hl2. }
  cbv beta. fold c2. fold σ2.
  erewrite bind_Ok.
  2: { apply shape_Ok. unfold σ2, σ1.
       rewrite lookup_insert_ne by done. apply lookup_insert_eq. }
  cbv beta iota.
  erewrite bind_Ok.
  2: { apply setitem_Ok. unfold σ2, σ1.
       rewrite lookup_insert_ne by done. apply lookup_insert_eq. }
  cbv beta. set (σ3 := <[c1 := _]> σ2).
  erewrite bind_Ok.
  2: { apply shape_Ok. unfold σ3, σ2.
       rewrite lookup_insert_ne by done. apply lookup_insert_eq. }
  cbv beta iota.
  erewrite bind_Ok.
  2: { apply setitem_Ok. unfold σ3, σ2.
       rewrite lookup_insert_ne by done. apply lookup_insert_eq. }
  cbv beta. set (σ4 := <[c2 := _]> σ3).
  assert (Hkeep : ∀ k a, σ !! k = Some a → σ4 !! k = Some a).
  { intros k a Hk. unfold σ4, σ3, σ2, σ1.
    rewrite !lookup_insert_ne by congruence. exact Hk. }
  erewrite add_Ok; [| |apply lookup_insert_eq|exact Hr].
  2: { unfold σ4, σ3. rewrite lookup_insert_ne by done. apply lookup_insert_eq. }
  eexists _, _. split; [reflexivity|]. split; [|split].
  - pose proof (fresh_None σ4) as Hf.
    destruct (σ !! fresh (dom σ4)) as [a|] eqn:E; [|done].
    apply Hkeep in E. congruence.
  - apply lookup_insert_eq.
  - intros k a Hk. rewrite lookup_insert_ne; [by apply Hkeep|].
    intros <-. apply Hkeep in Hk. pose proof (fresh_None σ4). congruence.
Qed.

(** The sum on line 260, for two rectangular patterns of equal shape. *)
Lemma merge_sum (p1 p2 : ndarray) :
  wf_ndarray p1 → wf_ndarray p2 →
  shape0 p2 = shape0 p1 → shape1 p2 = shape1 p1 →
  ∃ r, Np.add
         (Np.fill (Py.Slice None None)
                  (Py.Slice (Some (Z.of_nat (shape1 p1) `div` 2)) None) 0 p1)
         (Np.fill (Py.Slice None None)
                  (Py.Slice None (Some (Z.of_nat (shape1 p2) `div` 2))) 0 p2) = Ok r ∧
       wf_ndarray r ∧ shape0 r = shape0 p1 ∧ shape1 r = shape1 p1 ∧
       ∀ i j x y, cell p1 i j = Some x → cell p2 i j = Some y →
         cell r i j = Some (if bool_decide (j < shape1 p1 / 2)%nat then x else y).
Proof.
  intros Hp1 Hp2 E0 E1.
  destruct (binop_same_shape Z.add
              (Np.fill (Py.Slice None None)
                 (Py.Slice (Some (Z.of_nat (shape1 p1) `div` 2)) None) 0 p1)
              (Np.fill (Py.Slice None None)
                 (Py.Slice None (Some (Z.of_nat (shape1 p2) `div` 2))) 0 p2))
    as (r & Hr & Hwf & H0 & H1 & Hcell); [by apply wf_fill..|done|done|].
  exists r. split; [exact Hr|]. split; [done|]. split; [done|]. split; [done|].
  intros i j x y Hx Hy. rewrite Hcell, !cell_fill, Hx, Hy. cbn -[Nat.div].
  assert (Hij : (i < shape0 p1)%nat ∧ (j < shape1 p1)%nat).
  { apply cell_is_Some; [done|]. by eexists. }
  destruct Hij as [Hi Hj].
  rewrite !in_slice_all by lia.
  rewrite in_slice_from_half by done.
  rewrite E1, in_slice_upto_half. cbn -[Nat.div]. f_equal.
  destruct (decide (j < shape1 p1 / 2)%nat) as [Hlt|Hge].
  - rewrite bool_decide_eq_false_2 by lia.
    rewrite bool_decide_eq_true_2 by done. lia.
  - rewrite bool_decide_eq_true_2 by lia.
    rewrite bool_decide_eq_false_2 by done. lia.
Qed.

(** C3. For patterns [p1], [p2] of equal shape [(h, w)], [merge_patterns]
    returns a new array object that equals [p1] at every column index below
    [w / 2] and [p2] at every column index from [w / 2] on; after the call
    both input objects (which may be one and the same) still hold what they
    held, as does every other array of the store. *)
Theorem merge_patterns_spec (σ : heap) (l1 l2 : loc) (p1 p2 : ndarray) :
  σ !! l1 = Some p1 → σ !! l2 = Some p2 →
  wf_ndarray p1 → wf_ndarray p2 →
  shape0 p2 = shape0 p1 → shape1 p2 = shape1 p1 →
  ∃ l' σ' r,
    merge_patterns l1 l2 σ = Ok (l', σ') ∧
    σ !! l' = None ∧ σ' !! l' = Some r ∧
    σ' !! l1 = Some p1 ∧ σ' !! l2 = Some p2 ∧
    (∀ k a, σ !! k = Some a → σ' !! k = Some a) ∧
    wf_ndarray r ∧ shape0 r = shape0 p1 ∧ shape1 r = shape1 p1 ∧
    ∀ i j x y, cell p1 i j = Some x → cell p2 i j = Some y →
      cell r i j = Some (if bool_decide (j < shape1 p1 / 2)%nat then x else y).
Proof.
  intros Hl1 Hl2 Hp1 Hp2 E0 E1.
  destruct (merge_sum p1 p2 Hp1 Hp2 E0 E1) as (r & Hr & Hwf & H0 & H1 & Hcell).
  destruct (merge_patterns_run σ l1 l2 p1 p2 r Hl1 Hl2 Hr)
    as (l' & σ' & Hrun & Hnew & Hres & Hkeep).
  exists l', σ', r.
  repeat split; try done; try apply Hwf; by apply Hkeep.
Qed.

Lemma merge_patterns_spec_witness :
  let p1 := NDArray 1 2 [[1; 2]] in
  let p2 := NDArray 1 2 [[3; 4]] in
  let σ : heap := {[ 0%nat := p1; 1%nat := p2 ]} in
  (σ !! 0%nat = Some p1 ∧ σ !! 1%nat = Some p2 ∧ wf_ndarray p1 ∧ wf_ndarray p2 ∧
   shape0 p2 = shape0 p1 ∧ shape1 p2 = shape1 p1) ∧
  ∃ l' σ' r, merge_patterns 0%nat 1%nat σ = Ok (l', σ') ∧ σ' !! l' = Some r ∧
             σ' !! 0%nat = Some p1 ∧ σ' !! 1%nat = Some p2 ∧ shape1 r = 2%nat.
Proof.
  intros p1 p2 σ.
  assert (H1 : σ !! 0%nat = Some p1) by reflexivity.
  assert (H2 : σ !! 1%nat = Some p2) by reflexivity.
  assert (H3 : wf_ndarray p1) by (split; [reflexivity|repeat constructor]).
  assert (H4 : wf_ndarray p2) by (split; [reflexivity|repeat constructor]).
  split; [repeat split; assumption || reflexivity || apply H3 || apply H4|].
  destruct (merge_patterns_spec σ 0%nat 1%nat p1 p2 H1 H2 H3 H4 eq_refl eq_refl)
    as (l' & σ' & r & Hrun & _ & Hr & Hk1 & Hk2 & _ & _ & _ & Hs & _).
  exists l', σ', r. repeat split; assumption.
Defined.

(** C4. For patterns [p1], [p2] of equal shape, [merge_patterns(p1, p2)] and
    [merge_patterns(p2, p1)] return different arrays whenever [p1] and [p2]
    differ, and when [p1 = p2] the merge returns an array equal to [p1]. *)
Theorem merge_patterns_swap (σ : heap) (l1 l2 : loc) (p1 p2 : ndarray) :
  σ !! l1 = Some p1 → σ !! l2 = Some p2 →
  wf_ndarray p1 → wf_ndarray p2 →
  shape0 p2 = shape0 p1 → shape1 p2 = shape1 p1 →
  ∃ r12 r21,
    returns_new (merge_patterns l1 l2) σ r12 ∧
    returns_new (merge_patterns l2 l1) σ r21 ∧
    (p1 ≠ p2 → r12 ≠ r21) ∧
    (p1 = p2 → r12 = p1).
Proof.
  intros Hl1 Hl2 Hp1 Hp2 E0 E1.
  destruct (merge_sum p1 p2 Hp1 Hp2 E0 E1) as (r12 & Hr12 & Hwf12 & A0 & A1 & Hc12).
  destruct (merge_sum p2 p1 Hp2 Hp1 (eq_sym E0) (eq_sym E1))
    as (r21 & Hr21 & Hwf21 & B0 & B1 & Hc21).
  exists r12, r21.
  split; [by eapply merge_patterns_run|]. split; [by eapply merge_patterns_run|].
  assert (Hin : ∀ i j, (i < shape0 p1)%nat → (j < shape1 p1)%nat →
            ∃ x y, cell p1 i j = Some x ∧ cell p2 i j = Some y).
  { intros i j Hi Hj.
    destruct (proj2 (cell_is_Some p1 i j Hp1) (conj Hi Hj)) as [x Hx].
    destruct (proj2 (cell_is_Some p2 i j Hp2)) as [y Hy]; [rewrite E0, E1; done|].
    by exists x, y. }
  split.
  - intros Hne Heq. apply Hne.
    apply ndarray_ext; [done..|]. intros i j.
    destruct (decide ((i < shape0 p1)%nat ∧ (j < shape1 p1)%nat)) as [[Hi Hj]|Hout].
    + destruct (Hin i j Hi Hj) as (x & y & Hx & Hy).
      pose proof (Hc12 i j x y Hx Hy) as H12.
      pose proof (Hc21 i j y x Hy Hx) as H21.
      rewrite Heq, H21, E1 in H12. rewrite Hx, Hy.
      destruct (bool_decide (j < shape1 p1 / 2)%nat); congruence.
    + rewrite (cell_None p1) by done.
      rewrite (cell_None p2) by (by rewrite ?E0, ?E1). done.
  - intros <-. apply ndarray_ext; [done..|]. intros i j.
    destruct (decide ((i < shape0 p1)%nat ∧ (j < shape1 p1)%nat)) as [[Hi Hj]|Hout].
    + destruct (Hin i j Hi Hj) as (x & y & Hx & Hy).
      rewrite (Hc12 i j x y Hx Hy), Hx.
      destruct (bool_decide (j < shape1 p1 / 2)%nat); congruence.
    + rewrite (cell_None p1) by done.
      rewrite (cell_None r12) by (by rewrite ?A0, ?A1). done.
Qed.

Lemma merge_patterns_swap_witness :
  let p1 := NDArray 1 2 [[1; 2]] in
  let p2 := NDArray 1 2 [[3; 4]] in
  let σ : heap := {[ 0%nat := p1; 1%nat := p2 ]} in
  (σ !! 0%nat = Some p1 ∧ σ !! 1%nat = Some p2 ∧ wf_ndarray p1 ∧ wf_ndarray p2 ∧
   shape0 p2 = shape0 p1 ∧ shape1 p2 = shape1 p1 ∧ p1 ≠ p2) ∧
  ∃ r12 r21, returns_new (merge_patterns 0%nat 1%nat) σ r12 ∧
             returns_new (merge_patterns 1%nat 0%nat) σ r21 ∧ r12 ≠ r21.
Proof.
  intros p1 p2 σ.
  assert (H1 : σ !! 0%nat = Some p1) by reflexivity.
  assert (H2 : σ !! 1%nat = Some p2) by reflexivity.
  assert (H3 : wf_ndarray p1) by (split; [reflexivity|repeat constructor]).
  assert (H4 : wf_ndarray p2) by (split; [reflexivity|repeat constructor]).
  assert (H5 : p1 ≠ p2) by discriminate.
  split; [repeat split; assumption || reflexivity || apply H3 || apply H4|].
  destruct (merge_patterns_swap σ 0%nat 1%nat p1 p2 H1 H2 H3 H4 eq_refl eq_refl)
    as (r12 & r21 & Ha & Hb & Hne & _).
  exists r12, r21. split; [exact Ha|]. split; [exact Hb|exact (Hne H5)].
Defined.

(** ** Indexing from the end *)

Lemma getitem_nat {A} (l : list A) (i : nat) (x : A) :
  l !! i = Some x → Py.getitem l (Z.of_nat i) = Ok x.
Proof.
  intros H. pose proof (lookup_lt_Some _ _ _ H) as Hlt.
  unfold Py.getitem, Py.len. cbv zeta.
  rewrite (decide_False (P := Z.of_nat i < 0)) by lia.
  rewrite decide_True by lia. by rewrite Nat2Z.id, H.
Qed.

Lemma getitem_back_Ok {A} (l : list A) (sb : Z) :
  0 ≤ sb ≤ Py.len l - 1 →
  ∃ x, l !! Z.to_nat (Py.len l - 1 - sb) = Some x ∧ Py.getitem l (- sb - 1) = Ok x.
Proof.
  intros Hsb. unfold Py.getitem. cbv zeta.
  rewrite (decide_True (P := - sb - 1 < 0)) by lia.
  rewrite decide_True by lia.
  replace (- sb - 1 + Py.len l) with (Py.len l - 1 - sb) by lia.
  destruct (lookup_lt_is_Some_2 l (Z.to_nat (Py.len l - 1 - sb))) as [x Hx].
  { unfold Py.len in *. lia. }
  exists x. by rewrite Hx.
Qed.

Lemma getitem_back_Raise {A} (l : list A) (sb : Z) :
  0 ≤ sb → Py.len l - 1 < sb → Py.getitem l (- sb - 1) = Raise IndexError.
Proof.
  intros H0 Hsb. unfold Py.getitem. cbv zeta.
  rewrite (decide_True (P := - sb - 1 < 0)) by lia.
  by rewrite decide_False by lia.
Qed.

(** ** argmax and argmin *)

Lemma Qlt_bool_true (x y : Q) : Py.Qlt_bool x y = true ↔ (x < y)%Q.
Proof.
  unfold Py.Qlt_bool. destruct (Qlt_le_dec x y) as [H|H]; split; try done.
  intros H'. exfalso. by apply (Qlt_not_le _ _ H').
Qed.

Lemma Qlt_bool_false (x y : Q) : Py.Qlt_bool x y = false ↔ (y <= x)%Q.
Proof.
  unfold Py.Qlt_bool. destruct (Qlt_le_dec x y) as [H|H]; split; try done.
  intros H'. exfalso. by apply (Qlt_not_le _ _ H).
Qed.

Lemma argmax_from_spec (v pre : list Q) (best : nat) (m : Q) :
  pre !! best = Some m →
  (∀ j y, pre !! j = Some y → (y <= m)%Q ∧ ((j < best)%nat → (y < m)%Q)) →
  ∃ mb, (pre ++ v) !! Np.argmax_from best m (length pre) v = Some mb ∧
        ∀ j y, (pre ++ v) !! j = Some y →
          (y <= mb)%Q ∧ ((j < Np.argmax_from best m (length pre) v)%nat → (y < mb)%Q).
Proof.
  revert pre best m. induction v as [|x v IH]; intros pre best m Hbest Hpre.
  - simpl. rewrite app_nil_r. by exists m.
  - simpl. replace (pre ++ x :: v) with ((pre ++ [x]) ++ v) by (by rewrite <- app_assoc).
    replace (S (length pre)) with (length (pre ++ [x])) by (rewrite length_app; simpl; lia).
    destruct (Py.Qlt_bool m x) eqn:Hlt.
    + apply Qlt_bool_true in Hlt. apply IH.
      * rewrite lookup_app_r by lia. by rewrite Nat.sub_diag.
      * intros j y Hj.
        apply lookup_app_Some in Hj as [Hj|[Hge Hj]].
        -- destruct (Hpre _ _ Hj) as [Hle _]. split.
           ++ apply Qlt_le_weak. by eapply Qle_lt_trans.
           ++ intros _. by eapply Qle_lt_trans.
        -- destruct (j - length pre)%nat as [|k] eqn:Hk; [|done].
           simpl in Hj. injection Hj as <-. split; [apply Qle_refl|lia].
    + apply Qlt_bool_false in Hlt. apply IH.
      * apply lookup_app_l_Some. done.
      * intros j y Hj. apply lookup_app_Some in Hj as [Hj|[Hge Hj]].
        -- by apply Hpre.
        -- destruct (j - length pre)%nat as [|k] eqn:Hk; [|done].
           simpl in Hj. injection Hj as <-. split; [done|].
           intros Hjb. apply lookup_lt_Some in Hbest. lia.
Qed.

Lemma argmax_spec (v : list Q) :
  v ≠ [] →
  ∃ b mb, Np.argmax v = Ok b ∧ v !! b = Some mb ∧
          ∀ j y, v !! j = Some y → (y <= mb)%Q ∧ ((j < b)%nat → (y < mb)%Q).
Proof.
  destruct v as [|x v]; [done|]. intros _.
  destruct (argmax_from_spec v [x] 0 x) as (mb & H1 & H2); [done| |].
  { intros [|j] y; [|done]. simpl. intros [= <-]. split; [apply Qle_refl|lia]. }
  exists (Np.argmax_from 0 x 1 v), mb. done.
Qed.

Lemma argmin_from_spec (v pre : list Q) (best : nat) (m : Q) :
  pre !! best = Some m →
  (∀ j y, pre !! j = Some y → (m <= y)%Q ∧ ((j < best)%nat → (m < y)%Q)) →
  ∃ mb, (pre ++ v) !! Np.argmin_from best m (length pre) v = Some mb ∧
        ∀ j y, (pre ++ v) !! j = Some y →
          (mb <= y)%Q ∧ ((j < Np.argmin_from best m (length pre) v)%nat → (mb < y)%Q).
Proof.
  revert pre best m. induction v as [|x v IH]; intros pre best m Hbest Hpre.
  - simpl. rewrite app_nil_r. by exists m.
  - simpl. replace (pre ++ x :: v) with ((pre ++ [x]) ++ v) by (by rewrite <- app_assoc).
    replace (S (length pre)) with (length (pre ++ [x])) by (rewrite length_app; simpl; lia).
    destruct (Py.Qlt_bool x m) eqn:Hlt.
    + apply Qlt_bool_true in Hlt. apply IH.
      * rewrite lookup_app_r by lia. by rewrite Nat.sub_diag.
      * intros j y Hj.
        apply lookup_app_Some in Hj as [Hj|[Hge Hj]].
        -- destruct (Hpre _ _ Hj) as [Hle _]. split.
           ++ apply Qlt_le_weak. by eapply Qlt_le_trans.
           ++ intros _. by eapply Qlt_le_trans.
        -- destruct (j - length pre)%nat as [|k] eqn:Hk; [|done].
           simpl in Hj. injection Hj as <-. split; [apply Qle_refl|lia].
    + apply Qlt_bool_false in Hlt. apply IH.
      * apply lookup_app_l_Some. done.
      * intros j y Hj. apply lookup_app_Some in Hj as [Hj|[Hge Hj]].
        -- by apply Hpre.
        -- destruct (j - length pre)%nat as [|k] eqn:Hk; [|done].
           simpl in Hj. injection Hj as <-. split; [done|].
           intros Hjb. apply lookup_lt_Some in Hbest. lia.
Qed.

Lemma argmin_spec (v : list Q) :
  v ≠ [] →
  ∃ b mb, Np.argmin v = Ok b ∧ v !! b = Some mb ∧
          ∀ j y, v !! j = Some y → (mb <= y)%Q ∧ ((j < b)%nat → (mb < y)%Q).
Proof.
  destruct v as [|x v]; [done|]. intros _.
  destruct (argmin_from_spec v [x] 0 x) as (mb & H1 & H2); [done| |].
  { intros [|j] y; [|done]. simpl. intros [= <-]. split; [apply Qle_refl|lia]. }
  exists (Np.argmin_from 0 x 1 v), mb. done.
Qed.

(** ** visualise_hopfield_network *)

Lemma result_bind_Ok {A B} (r : result A) (k : A → result B) (a : A) :
  r = Ok a → (r ≫= k) = k a.
Proof. by intros ->. Qed.

Lemma result_bind_Raise {A B} (r : result A) (k : A → result B) (e : exn) :
  r = Raise e → (r ≫= k) = Raise e.
Proof. by intros ->. Qed.

Lemma visualise_ok (net : HopfieldNetwork) (sb : Z) (title : option string) :
  wf_network net →
  0 ≤ sb ≤ Py.len (history_state net) - 1 →
  let i := Z.to_nat (Py.len (history_state net) - 1 - sb) in
  ∃ state sims image best m name pattern,
    history_state net !! i = Some state ∧
    history_similarities net !! i = Some sims ∧
    Np.reshape state (pattern_shape net) = Ok image ∧
    sims !! best = Some m ∧
    (∀ j y, sims !! j = Some y →
       (Qabs y <= Qabs m)%Q ∧ ((j < best)%nat → (Qabs y < Qabs m)%Q)) ∧
    (best < N_patterns net)%nat ∧
    pattern_names net !! best = Some name ∧
    patterns_dict net !! name = Some pattern ∧
    visualise_hopfield_network net sb title =
      Ok {| state_image := image;
            panel_title := title_or title "Network activity pattern";
            bar_heights := sims;
            best_pattern_id := best;
            bar_colors := <[best := "blue"%string]> (replicate (N_patterns net) "C0"%string);
            inset_image := pattern;
            inset_anchor := (inject_Z (Z.of_nat best) + (1 # 2),
                             (1 # 2) - (1 - m))%Q |}.
Proof.
  intros (Hlen & Hstates & Hsims & Hnames & Hpos & Hdict) Hsb i.
  destruct (getitem_back_Ok (history_state net) sb Hsb) as (state & Hst & Hget1).
  destruct (getitem_back_Ok (history_similarities net) sb) as (sims & Hsi & Hget2).
  { unfold Py.len in *. lia. }
  assert (Hi : Z.to_nat (Py.len (history_similarities net) - 1 - sb) = i).
  { unfold i, Py.len. by rewrite Hlen. }
  rewrite Hi in Hsi. fold i in Hst.
  rewrite Forall_lookup in Hstates. rewrite Forall_lookup in Hsims.
  rewrite Forall_lookup in Hdict.
  pose proof (Hstates _ _ Hst) as Hsize.
  pose proof (Hsims _ _ Hsi) as Hn.
  destruct (argmax_spec (Np.abs sims)) as (best & mb & Hbest & Hmb & Hmax).
  { intros E. apply (f_equal length) in E. unfold Np.abs in E.
    rewrite length_fmap in E. simpl in E. lia. }
  unfold Np.abs in Hmb, Hmax. rewrite list_lookup_fmap in Hmb.
  destruct (sims !! best) as [m|] eqn:Hm; [|done]. simpl in Hmb. injection Hmb as <-.
  pose proof (lookup_lt_Some _ _ _ Hm) as Hlt.
  destruct (lookup_lt_is_Some_2 (pattern_names net) best) as [name Hname]; [lia|].
  destruct (Hdict _ _ Hname) as [pattern Hpat].
  exists state, sims, (NDArray (pattern_shape net).1 (pattern_shape net).2
                        (Np.chunks (pattern_shape net).1 (pattern_shape net).2 state)),
         best, m, name, pattern.
  split; [done|]. split; [done|].
  assert (Hreshape : Np.reshape state (pattern_shape net) =
                     Ok (NDArray (pattern_shape net).1 (pattern_shape net).2
                           (Np.chunks (pattern_shape net).1 (pattern_shape net).2 state))).
  { unfold Np.reshape. by rewrite decide_True. }
  split; [done|]. split; [done|]. split.
  { intros j y Hy. apply Hmax. by rewrite list_lookup_fmap, Hy. }
  split; [lia|]. split; [done|]. split; [done|].
  unfold visualise_hopfield_network.
  rewrite (result_bind_Ok _ _ _ Hget1).
  rewrite (result_bind_Ok _ _ _ Hget2).
  rewrite (result_bind_Ok _ _ _ Hreshape).
  rewrite (result_bind_Ok _ _ _ Hbest).
  rewrite (result_bind_Ok _ _ _ (getitem_nat _ _ _ Hname)).
  erewrite result_bind_Ok by (unfold dict_getitem; by rewrite Hpat).
  erewrite result_bind_Ok.
  2: { unfold list_setitem. rewrite decide_True; [done|].
       rewrite length_replicate. lia. }
  by rewrite (result_bind_Ok _ _ _ (getitem_nat _ _ _ Hm)).
Qed.

Lemma wf_demo_network : wf_network demo_network.
Proof.
  unfold wf_network, demo_network; simpl.
  split; [reflexivity|]. split; [repeat constructor|]. split; [repeat constructor|].
  split; [reflexivity|]. split; [lia|].
  repeat constructor; eexists; vm_compute; reflexivity.
Defined.

(** C5. For a state history of length [L >= 1] and a non-negative
    [steps_back]: when [steps_back <= L - 1], the history index
    [-steps_back - 1] reads the entry at index [(L - 1) - steps_back], and on
    a well-formed network the call succeeds and draws that state and the
    similarities recorded at the same index; when [steps_back > L - 1] the
    call raises [IndexError] and returns nothing. *)
Theorem visualise_history_index
    (net : HopfieldNetwork) (steps_back : Z) (title : option string) :
  let L := Py.len (history_state net) in
  1 ≤ L → 0 ≤ steps_back →
  (steps_back ≤ L - 1 →
     (∃ state,
        history_state net !! Z.to_nat (L - 1 - steps_back) = Some state ∧
        Py.getitem (history_state net) (- steps_back - 1) = Ok state) ∧
     (wf_network net →
      ∃ state sims image panels,
        history_state net !! Z.to_nat (L - 1 - steps_back) = Some state ∧
        history_similarities net !! Z.to_nat (L - 1 - steps_back) = Some sims ∧
        Np.reshape state (pattern_shape net) = Ok image ∧
        visualise_hopfield_network net steps_back title = Ok panels ∧
        state_image panels = image ∧ bar_heights panels = sims)) ∧
  (L - 1 < steps_back →
     visualise_hopfield_network net steps_back title = Raise IndexError).
Proof.
  intros L HL Hsb. split.
  - intros Hle. split; [by apply getitem_back_Ok|]. intros Hwf.
    destruct (visualise_ok net steps_back title Hwf)
      as (state & sims & image & best & m & name & pattern &
          H1 & H2 & H3 & _ & _ & _ & _ & _ & Hrun); [done|].
    eexists state, sims, image, _. by rewrite Hrun.
  - intros Hgt. unfold visualise_hopfield_network.
    by rewrite (result_bind_Raise _ _ _ (getitem_back_Raise _ _ Hsb Hgt)).
Qed.

Lemma visualise_history_index_witness :
  1 ≤ Py.len (history_state demo_network) ∧ 0 ≤ 4 ∧
  visualise_hopfield_network demo_network 4 None = Raise IndexError ∧
  ∃ state, history_state demo_network !! 3%nat = Some state ∧
           Py.getitem (history_state demo_network) (- 0 - 1) = Ok state.
Proof.
  assert (H1 : 1 ≤ Py.len (history_state demo_network)) by (vm_compute; discriminate).
  split; [exact H1|]. split; [lia|]. split.
  - refine (proj2 (visualise_history_index demo_network 4 None H1 _) _);
      vm_compute; [discriminate|reflexivity].
  - refine (proj1 (proj1 (visualise_history_index demo_network 0 None H1 _) _));
      vm_compute; discriminate.
Defined.

(** C6. On a well-formed network and an in-range [steps_back], the call
    succeeds, and the pattern it highlights (blue bar, inset image) is the
    one at the index [b] of the maximum absolute similarity: no similarity
    exceeds [|similarities[b]|] in absolute value, and every one at a lower
    index is strictly smaller in absolute value, so among ties the first
    index is taken. *)
Theorem visualise_best_pattern
    (net : HopfieldNetwork) (steps_back : Z) (title : option string) :
  wf_network net →
  0 ≤ steps_back ≤ Py.len (history_state net) - 1 →
  ∃ sims panels m name,
    Py.getitem (history_similarities net) (- steps_back - 1) = Ok sims ∧
    visualise_hopfield_network net steps_back title = Ok panels ∧
    sims !! best_pattern_id panels = Some m ∧
    (∀ j y, sims !! j = Some y →
       (Qabs y <= Qabs m)%Q ∧
       ((j < best_pattern_id panels)%nat → (Qabs y < Qabs m)%Q)) ∧
    bar_colors panels =
      <[best_pattern_id panels := "blue"%string]>
        (replicate (N_patterns net) "C0"%string) ∧
    (best_pattern_id panels < N_patterns net)%nat ∧
    pattern_names net !! best_pattern_id panels = Some name ∧
    patterns_dict net !! name = Some (inset_image panels).
Proof.
  intros Hwf Hsb.
  destruct (visualise_ok net steps_back title Hwf Hsb)
    as (state & sims & image & best & m & name & pattern &
        H1 & H2 & H3 & H4 & H5 & H6 & H7 & H8 & Hrun).
  destruct (getitem_back_Ok (history_similarities net) steps_back) as (sims' & Hs & Hget).
  { destruct Hwf as (Hlen & _). unfold Py.len in *. lia. }
  assert (sims' = sims) as ->.
  { destruct Hwf as (Hlen & _). unfold Py.len in *. rewrite Hlen in Hs. congruence. }
  eexists sims, _, m, name. split; [exact Hget|]. split; [exact Hrun|]. done.
Qed.

Lemma visualise_best_pattern_witness :
  wf_network demo_network ∧
  0 ≤ 0 ≤ Py.len (history_state demo_network) - 1 ∧
  ∃ panels, visualise_hopfield_network demo_network 0 None = Ok panels ∧
            best_pattern_id panels = 0%nat.
Proof.
  assert (H : 0 ≤ 0 ≤ Py.len (history_state demo_network) - 1)
    by (vm_compute; split; discriminate).
  split; [exact wf_demo_network|]. split; [exact H|].
  destruct (visualise_best_pattern demo_network 0 None wf_demo_network H)
    as (sims & panels & m & name & _ & Hrun & _).
  exists panels. split; [exact Hrun|].
  vm_compute in Hrun. injection Hrun as <-. reflexivity.
Defined.

(** ** plot_energy: the series *)







(** ** plot_energy: the insets *)

Lemma foldl_maxQ_spec (l : list Q) (x : Q) :
  let m := foldl (λ m y, if Py.Qlt_bool m y then y else m) x l in
  (x <= m)%Q ∧ (∀ y, y ∈ l → (y <= m)%Q) ∧ (m = x ∨ m ∈ l).
Proof.
  revert x. induction l as [|a l IH]; intros x; cbn [foldl].
  - split; [apply Qle_refl|]. split; [|by left]. intros y Hy. by apply elem_of_nil in Hy.
  - pose proof (IH (if Py.Qlt_bool x a then a else x)) as H. cbv zeta in H.
    destruct H as (H1 & H2 & H3).
    destruct (Py.Qlt_bool x a) eqn:Hlt.
    + apply Qlt_bool_true in Hlt. split; [|split].
      * eapply Qle_trans; [apply Qlt_le_weak, Hlt|exact H1].
      * intros y [->|Hy]%elem_of_cons; [done|by apply H2].
      * right. apply elem_of_cons. destruct H3 as [->|H3]; [by left|by right].
    + apply Qlt_bool_false in Hlt. split; [done|split].
      * intros y [->|Hy]%elem_of_cons; [by eapply Qle_trans|by apply H2].
      * destruct H3 as [H3|H3]; [by left|right; apply elem_of_cons; by right].
Qed.

Lemma foldl_minQ_spec (l : list Q) (x : Q) :
  let m := foldl (λ m y, if Py.Qlt_bool y m then y else m) x l in
  (m <= x)%Q ∧ (∀ y, y ∈ l → (m <= y)%Q) ∧ (m = x ∨ m ∈ l).
Proof.
  revert x. induction l as [|a l IH]; intros x; cbn [foldl].
  - split; [apply Qle_refl|]. split; [|by left]. intros y Hy. by apply elem_of_nil in Hy.
  - pose proof (IH (if Py.Qlt_bool a x then a else x)) as H. cbv zeta in H.
    destruct H as (H1 & H2 & H3).
    destruct (Py.Qlt_bool a x) eqn:Hlt.
    + apply Qlt_bool_true in Hlt. split; [|split].
      * eapply Qle_trans; [exact H1|apply Qlt_le_weak, Hlt].
      * intros y [->|Hy]%elem_of_cons; [done|by apply H2].
      * right. apply elem_of_cons. destruct H3 as [->|H3]; [by left|by right].
    + apply Qlt_bool_false in Hlt. split; [done|split].
      * intros y [->|Hy]%elem_of_cons; [by eapply Qle_trans|by apply H2].
      * destruct H3 as [H3|H3]; [by left|right; apply elem_of_cons; by right].
Qed.

Lemma maxQ_spec (l : list Q) :
  l ≠ [] → ∃ hi, Py.maxQ l = Ok hi ∧ hi ∈ l ∧ ∀ y, y ∈ l → (y <= hi)%Q.
Proof.
  destruct l as [|x l]; [done|]. intros _.
  pose proof (foldl_maxQ_spec l x) as H. cbv zeta in H. destruct H as (H1 & H2 & H3).
  eexists. split; [reflexivity|]. split.
  - apply elem_of_cons. destruct H3 as [H3|H3]; [by left|by right].
  - intros y [->|Hy]%elem_of_cons; [done|by apply H2].
Qed.

Lemma minQ_spec (l : list Q) :
  l ≠ [] → ∃ lo, Py.minQ l = Ok lo ∧ lo ∈ l ∧ ∀ y, y ∈ l → (lo <= y)%Q.
Proof.
  destruct l as [|x l]; [done|]. intros _.
  pose proof (foldl_minQ_spec l x) as H. cbv zeta in H. destruct H as (H1 & H2 & H3).
  eexists. split; [reflexivity|]. split.
  - apply elem_of_cons. destruct H3 as [H3|H3]; [by left|by right].
  - intros y [->|Hy]%elem_of_cons; [done|by apply H2].
Qed.

Lemma inset_located_spec (energy : list Q) (k : Z) (hi lo : Q) :
  Py.maxQ energy = Ok hi → Py.minQ energy = Ok lo →
  let target := (hi - inject_Z k * (hi - lo) / 3)%Q in
  inset_target energy k = Ok target ∧
  ∃ i e, inset_located energy k = Ok i ∧ energy !! i = Some e ∧
         ∀ j y, energy !! j = Some y →
           (Qabs (e - target) <= Qabs (y - target))%Q ∧
           ((j < i)%nat → (Qabs (e - target) < Qabs (y - target))%Q).
Proof.
  intros Hhi Hlo target.
  assert (Ht : inset_target energy k = Ok target).
  { unfold inset_target, Np.ptp. rewrite Hhi, Hlo. reflexivity. }
  split; [exact Ht|].
  assert (Hne : energy ≠ []) by (intros ->; discriminate Hhi).
  destruct (argmin_spec (Np.abs ((λ e, e - target)%Q <$> energy)))
    as (i & d & Hi & Hd & Hmin).
  { intros E. apply (f_equal length) in E. unfold Np.abs in E.
    rewrite !length_fmap in E. destruct energy; [done|discriminate E]. }
  unfold Np.abs in Hd, Hmin. rewrite !list_lookup_fmap in Hd.
  destruct (energy !! i) as [e|] eqn:He; [|done]. simpl in Hd. injection Hd as <-.
  exists i, e. split.
  - unfold inset_located. rewrite Ht. exact Hi.
  - split; [done|]. intros j y Hy. apply Hmin.
    by rewrite !list_lookup_fmap, Hy.
Qed.

Lemma inset_count_located (energy : list Q) (n_steps k : Z) (i : nat) :
  inset_located energy k = Ok i →
  inset_count energy n_steps k =
    Ok (if decide (i = 0%nat) then (k * n_steps) `quot` 3 else Z.of_nat i).
Proof.
  intros Hi. unfold inset_count. rewrite Hi. cbn.
  destruct (decide (i = 0%nat)); [|done].
  unfold Py.int_div. by rewrite decide_False.
Qed.











Section monotonic_window.
Variable energy : list Q.
Variable n : nat.
Hypothesis energy_len : length energy = S n.
Hypothesis n_large : (3 ≤ n)%nat.






End monotonic_window.



(** ** animate_hopfield_network *)

Lemma for_each_Ok {A B} (f : A → result B) (g : A → B) (l : list A) :
  (∀ x, x ∈ l → f x = Ok (g x)) → for_each f l = Ok (g <$> l).
Proof.
  induction l as [|x l IH]; intros H; [done|].
  cbn [for_each]. rewrite (result_bind_Ok _ _ (g x)) by (apply H, elem_of_cons; by left).
  rewrite (result_bind_Ok _ _ (g <$> l)); [done|].
  apply IH. intros y Hy. apply H, elem_of_cons. by right.
Qed.





(** ** Scenarios *)

Example grid_shape_scenarios :
  grid_shape 4 = Ok (2, 2) ∧ grid_shape 1 = Ok (1, 1) ∧ grid_shape 7 = Ok (1, 7) ∧
  grid_shape 12 = Ok (3, 4) ∧ grid_shape 0 = Raise ValueError.
Proof. repeat split; reflexivity. Qed.

Example mask_pattern_ones :
  let ones := NDArray 4 4 (replicate 4 (replicate 4 1)) in
  ∃ l σ', mask_pattern 0%nat {[ 0%nat := ones ]} = Ok (l, σ') ∧
          σ' !! l = Some (NDArray 4 4 [[1; 1; 0; 0]; [1; 1; 0; 0]; [0; 0; 0; 0]; [0; 0; 0; 0]]) ∧
          σ' !! 0%nat = Some ones.
Proof. eexists _, _. split; [vm_compute; reflexivity|]. split; reflexivity. Qed.

Example merge_patterns_ones_zeros :
  let ones := NDArray 4 4 (replicate 4 (replicate 4 1)) in
  let zeros := NDArray 4 4 (replicate 4 (replicate 4 0)) in
  ∃ l σ', merge_patterns 0%nat 1%nat {[ 0%nat := ones; 1%nat := zeros ]} = Ok (l, σ') ∧
          σ' !! l = Some (NDArray 4 4 (replicate 4 [1; 1; 0; 0])).
Proof. eexists _, _. split; [vm_compute; reflexivity|]. reflexivity. Qed.

Example merge_patterns_shape_mismatch :
  merge_patterns 0%nat 1%nat
    {[ 0%nat := NDArray 2 2 [[1; 1]; [1; 1]]; 1%nat := NDArray 3 3 (replicate 3 [0; 0; 0]) ]}
  = Raise ValueError.
Proof. vm_compute. reflexivity. Qed.

Example argmax_tie :
  Np.argmax (Np.abs [1 # 4; -1 # 2; 1 # 2; -1 # 2]%Q) = Ok 1%nat.
Proof. reflexivity. Qed.

Example animate_single_frame :
  frames <$> (match animate_hopfield_network 10 1 1 with Ok a => Some a | Raise _ => None end)
  = Some [(10, 0)].
Proof. reflexivity. Qed.


(** ** The pattern transforms composed *)

Lemma returns_new_bind (m : M loc) (k : loc → M loc) (σ σ' : heap) (l : loc) (r : ndarray) :
  m σ = Ok (l, σ') →
  (∀ j a, σ !! j = Some a → σ' !! j = Some a) →
  returns_new (k l) σ' r →
  returns_new (m ≫= k) σ r.
Proof.
  intros Hm Hkeep (l' & σ'' & Hk & Hnew & Hres & Hkeep').
  exists l', σ''. split; [by rewrite (bind_Ok _ _ _ _ _ Hm)|].
  split; [|split; [done|by auto]].
  destruct (σ !! l') as [a|] eqn:E; [|done].
  apply Hkeep in E. congruence.
Qed.

Lemma mask_pattern_returns (σ : heap) (l : loc) (p : ndarray) :
  σ !! l = Some p → wf_ndarray p →
  ∃ r, returns_new (mask_pattern l) σ r ∧
       wf_ndarray r ∧ shape0 r = shape0 p ∧ shape1 r = shape1 p ∧
       ∀ i j x, cell p i j = Some x →
         cell r i j =
         Some (if bool_decide (i < shape0 p / 2 ∧ j < shape1 p / 2)%nat then x else 0).
Proof.
  intros Hl Hp. destruct (mask_product p Hp) as (r & Hr & Hrest).
  exists r. split; [by eapply mask_pattern_run|exact Hrest].
Qed.

Lemma merge_patterns_returns (σ : heap) (l1 l2 : loc) (p1 p2 : ndarray) :
  σ !! l1 = Some p1 → σ !! l2 = Some p2 →
  wf_ndarray p1 → wf_ndarray p2 →
  shape0 p2 = shape0 p1 → shape1 p2 = shape1 p1 →
  ∃ r, returns_new (merge_patterns l1 l2) σ r ∧
       wf_ndarray r ∧ shape0 r = shape0 p1 ∧ shape1 r = shape1 p1 ∧
       ∀ i j x y, cell p1 i j = Some x → cell p2 i j = Some y →
         cell r i j = Some (if bool_decide (j < shape1 p1 / 2)%nat then x else y).
Proof.
  intros Hl1 Hl2 Hp1 Hp2 E0 E1.
  destruct (merge_sum p1 p2 Hp1 Hp2 E0 E1) as (r & Hr & Hrest).
  exists r. split; [by eapply merge_patterns_run|exact Hrest].
Qed.

(** Two rectangular arrays of one shape that agree on every cell of that
    shape are equal. *)
Lemma ndarray_ext_in (a b : ndarray) :
  wf_ndarray a → wf_ndarray b →
  shape0 b = shape0 a → shape1 b = shape1 a →
  (∀ i j x, cell a i j = Some x → cell b i j = Some x) → a = b.
Proof.
  intros Ha Hb E0 E1 H. apply ndarray_ext; [done|done|done|done|].
  intros i j. destruct (cell a i j) as [x|] eqn:E; [symmetry; by apply H|].
  symmetry. apply cell_None; [done|]. rewrite E0, E1. intros Hij.
  apply (cell_is_Some a i j Ha) in Hij. rewrite E in Hij. by destruct Hij.
Qed.

(** Masking is idempotent: masking a masked pattern returns an array equal
    to the masked pattern, and leaves the store's arrays as they were. *)
Theorem mask_pattern_idempotent (σ : heap) (l : loc) (p : ndarray) :
  σ !! l = Some p → wf_ndarray p →
  ∃ r, returns_new (mask_pattern l) σ r ∧ returns_new (mask_twice l) σ r.
Proof.
  intros Hl Hp.
  destruct (mask_pattern_returns σ l p Hl Hp) as (r & Hrun & Hwf & E0 & E1 & Hcell).
  exists r. split; [exact Hrun|].
  destruct Hrun as (l' & σ' & Hrun & Hnew & Hres & Hkeep).
  destruct (mask_pattern_returns σ' l' r Hres Hwf) as (r2 & Hrun2 & Hwf2 & F0 & F1 & Hcell2).
  assert (r2 = r) as ->; [|by eapply returns_new_bind].
  symmetry. apply ndarray_ext_in; [done|done|done|done|].
  intros i j x Hx.
  rewrite (Hcell2 i j x Hx). f_equal.
  destruct (proj1 (cell_is_Some r i j Hwf)) as [Hi Hj]; [by eexists|].
  destruct (proj2 (cell_is_Some p i j Hp)) as [y Hy]; [by rewrite <- E0, <- E1|].
  rewrite (Hcell i j y Hy) in Hx. rewrite E0, E1.
  destruct (bool_decide (i < shape0 p / 2 ∧ j < shape1 p / 2)%nat); congruence.
Qed.

Lemma mask_pattern_idempotent_witness :
  let p := NDArray 2 2 [[5; 6]; [7; 8]] in
  let σ : heap := {[ 0%nat := p ]} in
  σ !! 0%nat = Some p ∧ wf_ndarray p ∧
  ∃ r, returns_new (mask_pattern 0%nat) σ r ∧ returns_new (mask_twice 0%nat) σ r.
Proof.
  intros p σ.
  assert (H1 : σ !! 0%nat = Some p) by reflexivity.
  assert (H2 : wf_ndarray p) by (split; [reflexivity|repeat constructor]).
  split; [exact H1|]. split; [exact H2|].
  exact (mask_pattern_idempotent σ 0%nat p H1 H2).
Defined.

(** Masking a merge keeps only the first pattern: for patterns of equal
    shape, [mask_pattern(merge_patterns(p1, p2))] returns an array equal to
    [mask_pattern(p1)], whatever [p2] holds. *)
Theorem mask_of_merge_is_mask (σ : heap) (l1 l2 : loc) (p1 p2 : ndarray) :
  σ !! l1 = Some p1 → σ !! l2 = Some p2 →
  wf_ndarray p1 → wf_ndarray p2 →
  shape0 p2 = shape0 p1 → shape1 p2 = shape1 p1 →
  ∃ r, returns_new (mask_pattern l1) σ r ∧ returns_new (mask_of_merge l1 l2) σ r.
Proof.
  intros Hl1 Hl2 Hp1 Hp2 E0 E1.
  destruct (mask_pattern_returns σ l1 p1 Hl1 Hp1) as (r & Hrun & Hwf & A0 & A1 & Hcell).
  exists r. split; [exact Hrun|].
  destruct (merge_patterns_returns σ l1 l2 p1 p2 Hl1 Hl2 Hp1 Hp2 E0 E1)
    as (mg & (l' & σ' & Hmg & Hnew & Hres & Hkeep) & Hwfm & B0 & B1 & Hcm).
  destruct (mask_pattern_returns σ' l' mg Hres Hwfm) as (r2 & Hrun2 & Hwf2 & F0 & F1 & Hcell2).
  assert (r2 = r) as ->; [|by eapply returns_new_bind].
  symmetry. apply ndarray_ext_in; [done|done|congruence|congruence|].
  intros i j x Hx.
  destruct (proj1 (cell_is_Some r i j Hwf)) as [Hi Hj]; [by eexists|].
  destruct (proj2 (cell_is_Some p1 i j Hp1)) as [a Ha]; [by rewrite <- A0, <- A1|].
  destruct (proj2 (cell_is_Some p2 i j Hp2)) as [b Hb]; [by rewrite E0, E1, <- A0, <- A1|].
  rewrite (Hcell2 i j _ (Hcm i j a b Ha Hb)). f_equal.
  rewrite (Hcell i j a Ha) in Hx. rewrite B0, B1.
  destruct (decide (i < shape0 p1 / 2 ∧ j < shape1 p1 / 2)%nat) as [[Hi' Hj']|Hno].
  - rewrite (bool_decide_eq_true_2 (_ ∧ _)) in Hx |- * by done.
    rewrite (bool_decide_eq_true_2 (j < _)%nat) by done. congruence.
  - rewrite (bool_decide_eq_false_2 (_ ∧ _)) in Hx |- * by done. congruence.
Qed.

Lemma mask_of_merge_is_mask_witness :
  let p1 := NDArray 2 2 [[1; 2]; [3; 4]] in
  let p2 := NDArray 2 2 [[5; 6]; [7; 8]] in
  let σ : heap := {[ 0%nat := p1; 1%nat := p2 ]} in
  (σ !! 0%nat = Some p1 ∧ σ !! 1%nat = Some p2 ∧ wf_ndarray p1 ∧ wf_ndarray p2 ∧
   shape0 p2 = shape0 p1 ∧ shape1 p2 = shape1 p1) ∧
  ∃ r, returns_new (mask_pattern 0%nat) σ r ∧ returns_new (mask_of_merge 0%nat 1%nat) σ r.
Proof.
  intros p1 p2 σ.
  assert (H1 : σ !! 0%nat = Some p1) by reflexivity.
  assert (H2 : σ !! 1%nat = Some p2) by reflexivity.
  assert (H3 : wf_ndarray p1) by (split; [reflexivity|repeat constructor]).
  assert (H4 : wf_ndarray p2) by (split; [reflexivity|repeat constructor]).
  split; [repeat split; assumption || reflexivity || apply H3 || apply H4|].
  exact (mask_of_merge_is_mask σ 0%nat 1%nat p1 p2 H1 H2 H3 H4 eq_refl eq_refl).
Defined.

(** Merging is a rectangular band: for four patterns of one shape,
    [merge_patterns(merge_patterns(a, b), merge_patterns(c, d))] returns an
    array equal to [merge_patterns(a, d)]; the inner right and left halves
    are discarded. *)
Theorem merge_of_merges_is_outer_merge
    (σ : heap) (la lb lc ld : loc) (a b c d : ndarray) :
  σ !! la = Some a → σ !! lb = Some b → σ !! lc = Some c → σ !! ld = Some d →
  wf_ndarray a → wf_ndarray b → wf_ndarray c → wf_ndarray d →
  (shape0 b = shape0 a ∧ shape1 b = shape1 a) →
  (shape0 c = shape0 a ∧ shape1 c = shape1 a) →
  (shape0 d = shape0 a ∧ shape1 d = shape1 a) →
  ∃ r, returns_new (merge_patterns la ld) σ r ∧
       returns_new (merge_of_merges la lb lc ld) σ r.
Proof.
  intros Ha Hb Hc Hd Wa Wb Wc Wd [B0 B1] [C0 C1] [D0 D1].
  destruct (merge_patterns_returns σ la ld a d Ha Hd Wa Wd D0 D1)
    as (r & Hrun & Wr & R0 & R1 & Hr).
  exists r. split; [exact Hrun|].
  destruct (merge_patterns_returns σ la lb a b Ha Hb Wa Wb B0 B1)
    as (x & (lx & σ1 & Hx & _ & Hresx & Hkeep1) & Wx & X0 & X1 & Hcx).
  destruct (merge_patterns_returns σ1 lc ld c d (Hkeep1 _ _ Hc) (Hkeep1 _ _ Hd) Wc Wd)
    as (y & (ly & σ2 & Hy & _ & Hresy & Hkeep2) & Wy & Y0 & Y1 & Hcy); [congruence..|].
  destruct (merge_patterns_returns σ2 lx ly x y (Hkeep2 _ _ Hresx) Hresy Wx Wy)
    as (z & Hz & Wz & Z0 & Z1 & Hcz); [congruence..|].
  assert (z = r) as ->.
  { symmetry. apply ndarray_ext_in; [done|done|congruence|congruence|].
    intros i j v Hv.
    destruct (proj1 (cell_is_Some r i j Wr)) as [Hi Hj]; [by eexists|].
    rewrite R0 in Hi. rewrite R1 in Hj.
    destruct (proj2 (cell_is_Some a i j Wa)) as [va Hva]; [done|].
    destruct (proj2 (cell_is_Some b i j Wb)) as [vb Hvb]; [by rewrite B0, B1|].
    destruct (proj2 (cell_is_Some c i j Wc)) as [vc Hvc]; [by rewrite C0, C1|].
    destruct (proj2 (cell_is_Some d i j Wd)) as [vd Hvd]; [by rewrite D0, D1|].
    rewrite (Hr i j va vd Hva Hvd) in Hv.
    rewrite (Hcz i j _ _ (Hcx i j va vb Hva Hvb) (Hcy i j vc vd Hvc Hvd)).
    rewrite X1, C1.
    destruct (bool_decide (j < shape1 a / 2)%nat); congruence. }
  unfold merge_of_merges.
  eapply returns_new_bind; [exact Hx|exact Hkeep1|].
  eapply returns_new_bind; [exact Hy|exact Hkeep2|].
  destruct Hz as (lz & σ3 & Hz & Hnew & Hresz & Hkeep3). by exists lz, σ3.
Qed.

Lemma merge_of_merges_is_outer_merge_witness :
  let a := NDArray 1 2 [[1; 2]] in
  let b := NDArray 1 2 [[3; 4]] in
  let σ : heap := {[ 0%nat := a; 1%nat := b ]} in
  (σ !! 0%nat = Some a ∧ σ !! 1%nat = Some b ∧ wf_ndarray a ∧ wf_ndarray b) ∧
  ∃ r, returns_new (merge_patterns 0%nat 1%nat) σ r ∧
       returns_new (merge_of_merges 0%nat 1%nat 1%nat 1%nat) σ r.
Proof.
  intros a b σ.
  assert (H1 : σ !! 0%nat = Some a) by reflexivity.
  assert (H2 : σ !! 1%nat = Some b) by reflexivity.
  assert (H3 : wf_ndarray a) by (split; [reflexivity|repeat constructor]).
  assert (H4 : wf_ndarray b) by (split; [reflexivity|repeat constructor]).
  split; [repeat split; assumption || apply H3 || apply H4|].
  exact (merge_of_merges_is_outer_merge σ 0%nat 1%nat 1%nat 1%nat a b b b
           H1 H2 H2 H2 H3 H4 H4 H4
           (conj eq_refl eq_refl) (conj eq_refl eq_refl) (conj eq_refl eq_refl)).
Defined.

(** *** Shapes that do not broadcast *)

Lemma add_Raise (σ : heap) (x y : loc) (a b : ndarray) (e : exn) :
  σ !! x = Some a → σ !! y = Some b → Np.add a b = Raise e →
  add x y σ = Raise e.
Proof.
  intros Hx Hy He. unfold add.
  erewrite bind_Ok by by apply load_Ok.
  erewrite bind_Ok by by apply load_Ok.
  unfold mbind, M_bind, lift. by rewrite He.
Qed.

Lemma merge_patterns_raise (σ : heap) (l1 l2 : loc) (p1 p2 : ndarray) (e : exn) :
  σ !! l1 = Some p1 → σ !! l2 = Some p2 →
  Np.add
    (Np.fill (Py.Slice None None)
             (Py.Slice (Some (Z.of_nat (shape1 p1) `div` 2)) None) 0 p1)
    (Np.fill (Py.Slice None None)
             (Py.Slice None (Some (Z.of_nat (shape1 p2) `div` 2))) 0 p2) = Raise e →
  merge_patterns l1 l2 σ = Raise e.
Proof.
  intros Hl1 Hl2 Hr. unfold merge_patterns.
  set (c1 := fresh (dom σ)).
  set (σ1 := <[c1 := p1]> σ).
  set (c2 := fresh (dom σ1)).
  set (σ2 := <[c2 := p2]> σ1).
  assert (Hc1 : σ !! c1 = None) by apply fresh_None.
  assert (Hc2 : σ1 !! c2 = None) by apply fresh_None.
  assert (Hc12 : c1 ≠ c2).
  { intros E. rewrite <- E in Hc2. unfold σ1 in Hc2. by rewrite lookup_insert_eq in Hc2. }
  erewrite bind_Ok by by apply deepcopy_Ok. cbv beta. fold c1. fold σ1.
  erewrite bind_Ok.
  2: { apply deepcopy_Ok. unfold σ1. rewrite lookup_insert_ne by congruence. exact Hl2. }
  cbv beta. fold c2. fold σ2.
  erewrite bind_Ok.
  2: { apply shape_Ok. unfold σ2, σ1.
       rewrite lookup_insert_ne by done. apply lookup_insert_eq. }
  cbv beta iota.
  erewrite bind_Ok.
  2: { apply setitem_Ok. unfold σ2, σ1.
       rewrite lookup_insert_ne by done. apply lookup_insert_eq. }
  cbv beta. set (σ3 := <[c1 := _]> σ2).
  erewrite bind_Ok.
  2: { apply shape_Ok. unfold σ3, σ2.
       rewrite lookup_insert_ne by done. apply lookup_insert_eq. }
  cbv beta iota.
  erewrite bind_Ok.
  2: { apply setitem_Ok. unfold σ3, σ2.
       rewrite lookup_insert_ne by done. apply lookup_insert_eq. }
  cbv beta. set (σ4 := <[c2 := _]> σ3).
  eapply add_Raise; [|apply lookup_insert_eq|exact Hr].
  unfold σ4, σ3. rewrite lookup_insert_ne by done. apply lookup_insert_eq.
Qed.

(** [merge_patterns] on two patterns whose row counts, or whose column
    counts, differ with neither of them 1 raises [ValueError]: the halves
    cannot be added. *)
Theorem merge_patterns_shape_mismatch_raises
    (σ : heap) (l1 l2 : loc) (p1 p2 : ndarray) :
  σ !! l1 = Some p1 → σ !! l2 = Some p2 →
  (shape0 p1 ≠ shape0 p2 ∧ shape0 p1 ≠ 1%nat ∧ shape0 p2 ≠ 1%nat) ∨
  (shape1 p1 ≠ shape1 p2 ∧ shape1 p1 ≠ 1%nat ∧ shape1 p2 ≠ 1%nat) →
  merge_patterns l1 l2 σ = Raise ValueError.
Proof.
  intros Hl1 Hl2 Hbad. eapply merge_patterns_raise; [done..|].
  unfold Np.add, Np.binop. cbn [shape0 shape1 Np.fill].
  assert (Hdim : ∀ m n, m ≠ n → m ≠ 1%nat → n ≠ 1%nat →
            Np.broadcast_dim m n = Raise ValueError).
  { intros m n H1 H2 H3. unfold Np.broadcast_dim. by rewrite !decide_False by done. }
  assert (Honly : ∀ m n e, Np.broadcast_dim m n = Raise e → e = ValueError).
  { intros m n e. unfold Np.broadcast_dim. repeat case_decide; congruence. }
  destruct Hbad as [(H1 & H2 & H3)|(H1 & H2 & H3)].
  - by rewrite (result_bind_Raise _ _ ValueError) by by apply Hdim.
  - destruct (Np.broadcast_dim (shape0 p1) (shape0 p2)) as [h|e] eqn:E.
    + rewrite (result_bind_Ok _ _ h) by done.
      by rewrite (result_bind_Raise _ _ ValueError) by by apply Hdim.
    + rewrite (result_bind_Raise _ _ e) by done. f_equal. by eapply Honly.
Qed.

Lemma merge_patterns_shape_mismatch_raises_witness :
  let p1 := NDArray 2 2 [[1; 1]; [1; 1]] in
  let p2 := NDArray 2 3 [[0; 0; 0]; [0; 0; 0]] in
  let σ : heap := {[ 0%nat := p1; 1%nat := p2 ]} in
  σ !! 0%nat = Some p1 ∧ σ !! 1%nat = Some p2 ∧
  merge_patterns 0%nat 1%nat σ = Raise ValueError.
Proof.
  intros p1 p2 σ.
  assert (H1 : σ !! 0%nat = Some p1) by reflexivity.
  assert (H2 : σ !! 1%nat = Some p2) by reflexivity.
  split; [exact H1|]. split; [exact H2|].
  apply (merge_patterns_shape_mismatch_raises σ 0%nat 1%nat p1 p2 H1 H2).
  right. simpl. repeat split; discriminate.
Defined.

(** ** animate_hopfield_network: failures, coverage, rendering *)








(** ** plot_energy: when it returns, and what the insets show *)

Lemma plot_energy_inv (net : HopfieldNetwork) (n_steps : option Z) (ep : EnergyPlot) :
  plot_energy net n_steps = Ok ep →
  ∃ n energy t lo hi e1 e2 e3 e4 s1 s2 s3 s4 c1 c2 q1 q2,
    energy_series net n_steps = (n, energy, t) ∧
    length t = length energy ∧
    Py.minQ energy = Ok lo ∧ Py.maxQ energy = Ok hi ∧
    Py.getitem energy 0 = Ok e1 ∧ state_at net (- n - 1) = Ok s1 ∧
    inset_count energy n 1 = Ok c1 ∧
    Py.getitem energy c1 = Ok e2 ∧ state_at net (- n - 1 + c1) = Ok s2 ∧
    colour_position c1 n = Ok q1 ∧
    inset_count energy n 2 = Ok c2 ∧
    Py.getitem energy c2 = Ok e3 ∧ state_at net (- n - 1 + c2) = Ok s3 ∧
    colour_position c2 n = Ok q2 ∧
    Py.getitem energy (-1) = Ok e4 ∧ state_at net (-1) = Ok s4 ∧
    ep = {| ep_n_steps := n; ep_energy := energy; ep_t := t;
            ep_ylim := (lo - 5, hi + 5)%Q;
            ep_counts := (c1, c2); ep_colours := (q1, q2);
            ep_inset_energies := (e1, e2, e3, e4);
            ep_inset_states := (s1, s2, s3, s4) |}.
Proof.
  unfold plot_energy. destruct (energy_series net n_steps) as [[n energy] t].
  unfold same_size. destruct (decide (length t = length energy)) as [Hsize|]; [|done].
  rewrite (result_bind_Ok _ _ tt) by done.
  repeat lazymatch goal with
         | |- (?r ≫= ?k) = _ → _ =>
             destruct r eqn:?;
             [erewrite result_bind_Ok by reflexivity
             |erewrite result_bind_Raise by reflexivity; discriminate]
         end.
  intros [= <-]. repeat eexists; eassumption.
Qed.

Lemma getslice_from_length {A} (l : list A) (k : Z) :
  (length (Py.getslice l (Py.Slice (Some k) None)) ≤ length l)%nat.
Proof. unfold Py.getslice. rewrite length_take, length_drop. lia. Qed.

Lemma getitem_Ok_inv {A} (l : list A) (i : Z) (x : A) :
  Py.getitem l i = Ok x →
  - Py.len l ≤ i < Py.len l ∧
  l !! Z.to_nat (if decide (i < 0) then i + Py.len l else i) = Some x.
Proof.
  unfold Py.getitem. cbv zeta.
  destruct (decide (i < 0)) as [Hneg|Hpos];
    (destruct (decide (0 ≤ _ < Py.len l)) as [Hin|]; [|done]);
    (destruct (l !! _) as [y|] eqn:E; [|done]); intros [= ->]; split; (lia || done).
Qed.

Lemma inset_count_nonneg (energy : list Q) (n k c : Z) :
  0 ≤ n → 0 ≤ k → inset_count energy n k = Ok c → 0 ≤ c.
Proof.
  intros Hn Hk. unfold inset_count.
  destruct (inset_located energy k) as [i|] eqn:E; [|done].
  rewrite (result_bind_Ok _ _ i) by done.
  destruct (decide (i = 0%nat)); [|intros [= <-]; lia].
  unfold Py.int_div. rewrite decide_False by done. intros [= <-].
  apply Z.quot_pos; nia.
Qed.

(** [plot_energy] returns a plot only for [n_steps >= 1] and only when both
    the energy history and the state history hold at least [n_steps + 1]
    entries; the plotted window then has exactly [n_steps + 1] energies and
    both middle inset indices are valid indices into it.  In particular the
    call never returns for [n_steps <= 0], nor with [n_steps] unset on a
    history of fewer than three energies. *)
Theorem plot_energy_returns_only_if
    (net : HopfieldNetwork) (n_steps : option Z) (ep : EnergyPlot) :
  plot_energy net n_steps = Ok ep →
  ep_n_steps ep = default (Py.len (history_energy net) - 2) n_steps ∧
  1 ≤ ep_n_steps ep ∧
  Py.len (ep_energy ep) = ep_n_steps ep + 1 ∧
  ep_n_steps ep + 1 ≤ Py.len (history_energy net) ∧
  ep_n_steps ep + 1 ≤ Py.len (history_state net) ∧
  0 ≤ (ep_counts ep).1 ≤ ep_n_steps ep ∧
  0 ≤ (ep_counts ep).2 ≤ ep_n_steps ep.
Proof.
  intros Hep.
  destruct (plot_energy_inv _ _ _ Hep)
    as (n & energy & t & lo & hi & e1 & e2 & e3 & e4 & s1 & s2 & s3 & s4 & c1 & c2 & q1 & q2 &
        Hser & Hsize & Hlo & Hhi & He1 & Hs1 & Hc1 & He2 & Hs2 & Hq1 &
        Hc2 & He3 & Hs3 & Hq2 & He4 & Hs4 & ->).
  cbn [ep_n_steps ep_energy ep_counts fst snd].
  unfold energy_series in Hser. injection Hser as Hn Henergy Ht.
  assert (Hn0 : n ≠ 0).
  { intros ->. unfold colour_position in Hq1. by rewrite decide_True in Hq1. }
  assert (Hne : energy ≠ []) by (intros ->; discriminate Hlo).
  assert (Hlen_t : length t = Z.to_nat (n + 1)).
  { rewrite <- Ht, <- Hn. unfold Np.arange, Py.range. rewrite length_seqZ. lia. }
  assert (Hpos : (0 < length energy)%nat) by (destruct energy; [done|simpl; lia]).
  assert (Hlen : Py.len energy = n + 1) by (unfold Py.len; lia).
  assert (Hn1 : 1 ≤ n) by (unfold Py.len in Hlen; lia).
  split; [done|]. split; [done|]. split; [done|]. split.
  { pose proof (getslice_from_length (history_energy net) (- n - 1)) as Hle.
    rewrite <- Hn in Hle. rewrite Henergy in Hle. unfold Py.len in *. lia. }
  split.
  { unfold state_at in Hs1.
    destruct (Py.getitem (history_state net) (- n - 1)) as [st|] eqn:E; [|done].
    apply getitem_Ok_inv in E as [E _]. lia. }
  apply getitem_Ok_inv in He2 as [He2 _]. apply getitem_Ok_inv in He3 as [He3 _].
  assert (0 ≤ c1) by (apply (inset_count_nonneg energy n 1); [lia|lia|done]).
  assert (0 ≤ c2) by (apply (inset_count_nonneg energy n 2); [lia|lia|done]).
  lia.
Qed.

Lemma plot_energy_returns_only_if_witness :
  ∃ ep, plot_energy demo_network None = Ok ep ∧
        ep_n_steps ep = 2 ∧ Py.len (ep_energy ep) = 2 + 1.
Proof.
  assert (E : ∃ ep, plot_energy demo_network None = Ok ep)
    by (eexists; vm_compute; reflexivity).
  destruct E as [ep E]. exists ep. split; [exact E|].
  destruct (plot_energy_returns_only_if demo_network None ep E) as (H1 & _ & H3 & _).
  split; [exact H1|]. rewrite H3, H1. reflexivity.
Defined.

Lemma getslice_last {A} (l : list A) (n : Z) :
  0 ≤ n → n + 1 ≤ Py.len l →
  Py.getslice l (Py.Slice (Some (- n - 1)) None)
  = drop (length l - Z.to_nat (n + 1)) l.
Proof.
  intros Hn Hlen. unfold Py.getslice, Py.slice_lo, Py.slice_hi, Py.clamp.
  cbn [from_option Py.start Py.stop]. rewrite decide_True by lia.
  unfold Py.len in *.
  replace (Z.to_nat (Z.max (- n - 1 + Z.of_nat (length l)) 0))
    with (length l - Z.to_nat (n + 1))%nat by lia.
  apply take_ge. rewrite length_drop. lia.
Qed.

Lemma getitem_in_range {A} (l : list A) (i : Z) :
  0 ≤ i < Py.len l → ∃ x, l !! Z.to_nat i = Some x ∧ Py.getitem l i = Ok x.
Proof.
  intros Hi. destruct (lookup_lt_is_Some_2 l (Z.to_nat i)) as [x Hx].
  { unfold Py.len in Hi. lia. }
  exists x. split; [done|]. rewrite <- (Z2Nat.id i) by lia. by apply getitem_nat.
Qed.

Lemma state_at_back (net : HopfieldNetwork) (sb : Z) :
  Forall (λ s, length s = ((pattern_shape net).1 * (pattern_shape net).2)%nat)
         (history_state net) →
  0 ≤ sb ≤ Py.len (history_state net) - 1 →
  ∃ state image,
    history_state net !! Z.to_nat (Py.len (history_state net) - 1 - sb) = Some state ∧
    Np.reshape state (pattern_shape net) = Ok image ∧
    state_at net (- sb - 1) = Ok image.
Proof.
  intros Hsizes Hsb.
  destruct (getitem_back_Ok (history_state net) sb Hsb) as (state & Hst & Hget).
  rewrite Forall_lookup in Hsizes. pose proof (Hsizes _ _ Hst) as Hsize.
  eexists state, _. split; [done|].
  assert (Hre : Np.reshape state (pattern_shape net)
                = Ok (NDArray (pattern_shape net).1 (pattern_shape net).2
                        (Np.chunks (pattern_shape net).1 (pattern_shape net).2 state))).
  { unfold Np.reshape. by rewrite decide_True. }
  split; [exact Hre|]. unfold state_at. by rewrite (result_bind_Ok _ _ state).
Qed.

Lemma inset_count_in_window (energy : list Q) (n k : Z) :
  0 ≤ n → Py.len energy = n + 1 → 1 ≤ k ≤ 2 →
  ∃ c, inset_count energy n k = Ok c ∧ 0 ≤ c ≤ n.
Proof.
  intros Hn Hlen Hk.
  assert (Hne : energy ≠ []) by (intros ->; unfold Py.len in Hlen; simpl in Hlen; lia).
  destruct (maxQ_spec _ Hne) as (hi & Hhi & _).
  destruct (minQ_spec _ Hne) as (lo & Hlo & _).
  destruct (inset_located_spec energy k hi lo Hhi Hlo) as (_ & i & e & Hi & He & _).
  eexists. split; [by apply inset_count_located|].
  apply lookup_lt_Some in He. unfold Py.len in Hlen.
  destruct (decide (i = 0%nat)); [|lia].
  assert (k = 1 ∨ k = 2) as [->| ->] by lia; rewrite Z.quot_div_nonneg by lia;
    Z.div_mod_to_equations; lia.
Qed.

(** [plot_energy] returns a plot whenever [n_steps] (given, or the energy
    history length minus 2) is at least 1, both histories hold at least
    [n_steps + 1] entries, and every recorded state has as many entries as
    [pattern_shape] asks for. *)
Theorem plot_energy_returns_if (net : HopfieldNetwork) (n_steps : option Z) :
  let n := default (Py.len (history_energy net) - 2) n_steps in
  1 ≤ n →
  n + 1 ≤ Py.len (history_energy net) →
  n + 1 ≤ Py.len (history_state net) →
  Forall (λ s, length s = ((pattern_shape net).1 * (pattern_shape net).2)%nat)
         (history_state net) →
  ∃ ep, plot_energy net n_steps = Ok ep ∧ ep_n_steps ep = n.
Proof.
  intros n Hn He Hs Hsizes.
  unfold plot_energy, energy_series. fold n.
  rewrite getslice_last by lia.
  set (energy := drop _ (history_energy net)).
  assert (Hlen : Py.len energy = n + 1).
  { unfold energy, Py.len in *. rewrite length_drop. lia. }
  assert (Hne : energy ≠ []) by (intros E; rewrite E in Hlen; unfold Py.len in Hlen; simpl in Hlen; lia).
  rewrite (result_bind_Ok _ _ tt).
  2: { unfold same_size. rewrite decide_True; [done|].
       unfold Np.arange, Py.range. rewrite length_seqZ. unfold Py.len in Hlen. lia. }
  destruct (minQ_spec _ Hne) as (lo & Hlo & _).
  destruct (maxQ_spec _ Hne) as (hi & Hhi & _).
  rewrite (result_bind_Ok _ _ lo) by done.
  rewrite (result_bind_Ok _ _ hi) by done.
  destruct (getitem_in_range energy 0) as (e1 & _ & He1); [lia|].
  rewrite (result_bind_Ok _ _ e1) by done.
  destruct (state_at_back net n Hsizes) as (? & s1 & _ & _ & Hs1); [lia|].
  rewrite (result_bind_Ok _ _ s1) by done.
  destruct (inset_count_in_window energy n 1) as (c1 & Hc1 & Hb1); [lia..|].
  rewrite (result_bind_Ok _ _ c1) by done.
  destruct (getitem_in_range energy c1) as (e2 & _ & He2); [lia|].
  rewrite (result_bind_Ok _ _ e2) by done.
  destruct (state_at_back net (n - c1) Hsizes) as (? & s2 & _ & _ & Hs2); [lia|].
  replace (- (n - c1) - 1) with (- n - 1 + c1) in Hs2 by lia.
  rewrite (result_bind_Ok _ _ s2) by done.
  rewrite (result_bind_Ok _ _ (inject_Z c1 / inject_Z n)%Q)
    by (unfold colour_position; rewrite decide_False by lia; done).
  destruct (inset_count_in_window energy n 2) as (c2 & Hc2 & Hb2); [lia..|].
  rewrite (result_bind_Ok _ _ c2) by done.
  destruct (getitem_in_range energy c2) as (e3 & _ & He3); [lia|].
  rewrite (result_bind_Ok _ _ e3) by done.
  destruct (state_at_back net (n - c2) Hsizes) as (? & s3 & _ & _ & Hs3); [lia|].
  replace (- (n - c2) - 1) with (- n - 1 + c2) in Hs3 by lia.
  rewrite (result_bind_Ok _ _ s3) by done.
  rewrite (result_bind_Ok _ _ (inject_Z c2 / inject_Z n)%Q)
    by (unfold colour_position; rewrite decide_False by lia; done).
  destruct (getitem_back_Ok energy 0) as (e4 & _ & He4); [lia|].
  rewrite (result_bind_Ok _ _ e4) by exact He4.
  destruct (state_at_back net 0 Hsizes) as (? & s4 & _ & _ & Hs4); [lia|].
  rewrite (result_bind_Ok _ _ s4) by exact Hs4.
  eexists. split; reflexivity.
Qed.

Lemma plot_energy_returns_if_witness :
  let n := default (Py.len (history_energy demo_network) - 2) (Some 3) in
  1 ≤ n ∧ n + 1 ≤ Py.len (history_energy demo_network) ∧
  n + 1 ≤ Py.len (history_state demo_network) ∧
  ∃ ep, plot_energy demo_network (Some 3) = Ok ep ∧ ep_n_steps ep = 3.
Proof.
  intros n.
  assert (H1 : 1 ≤ n) by (vm_compute; discriminate).
  assert (H2 : n + 1 ≤ Py.len (history_energy demo_network)) by (vm_compute; discriminate).
  assert (H3 : n + 1 ≤ Py.len (history_state demo_network)) by (vm_compute; discriminate).
  split; [exact H1|]. split; [exact H2|]. split; [exact H3|].
  apply (plot_energy_returns_if demo_network (Some 3) H1 H2 H3).
  repeat constructor.
Defined.


Lemma plot_energy_window (net : HopfieldNetwork) (n_steps : option Z)
    (n : Z) (energy : list Q) (t : list Z) :
  energy_series net n_steps = (n, energy, t) →
  length t = length energy → energy ≠ [] → n ≠ 0 →
  1 ≤ n ∧ n + 1 ≤ Py.len (history_energy net) ∧ Py.len energy = n + 1 ∧
  energy = drop (length (history_energy net) - Z.to_nat (n + 1)) (history_energy net).
Proof.
  intros Hser Hsize Hne Hn0.
  unfold energy_series in Hser. injection Hser as Hn Henergy Ht.
  assert (Hlen_t : length t = Z.to_nat (n + 1)).
  { rewrite <- Ht, <- Hn. unfold Np.arange, Py.range. rewrite length_seqZ. lia. }
  assert (Hpos : (0 < length energy)%nat) by (destruct energy; [done|simpl; lia]).
  assert (Hlen : Py.len energy = n + 1) by (unfold Py.len; lia).
  assert (Hn1 : 1 ≤ n) by lia.
  assert (Hle : n + 1 ≤ Py.len (history_energy net)).
  { pose proof (getslice_from_length (history_energy net) (- n - 1)) as Hle.
    rewrite <- Hn in Hle. rewrite Henergy in Hle. unfold Py.len in *. lia. }
  split; [done|]. split; [done|]. split; [done|].
  rewrite <- Henergy, Hn. apply getslice_last; lia.
Qed.

Lemma state_at_inv (net : HopfieldNetwork) (i : Z) (s : ndarray) :
  state_at net i = Ok s → i < 0 →
  ∃ state, history_state net !! Z.to_nat (i + Py.len (history_state net)) = Some state ∧
           Np.reshape state (pattern_shape net) = Ok s.
Proof.
  unfold state_at. intros H Hi.
  destruct (Py.getitem (history_state net) i) as [state|] eqn:E; [|done].
  rewrite (result_bind_Ok _ _ state) in H by done.
  apply getitem_Ok_inv in E as [_ E]. rewrite decide_True in E by done.
  by exists state.
Qed.

(** Each of the four insets of a returned energy plot pairs an energy with
    the state recorded at the same distance from the end of the histories:
    the first inset is [n_steps] steps back, the two middle insets
    [n_steps - count] steps back for their index [count], and the last
    inset is the latest entry. *)
Theorem plot_energy_insets_aligned
    (net : HopfieldNetwork) (n_steps : option Z) (ep : EnergyPlot) :
  plot_energy net n_steps = Ok ep →
  ∃ e1 e2 e3 e4 s1 s2 s3 s4,
    ep_inset_energies ep = (e1, e2, e3, e4) ∧
    ep_inset_states ep = (s1, s2, s3, s4) ∧
    recorded_back net (ep_n_steps ep) e1 s1 ∧
    recorded_back net (ep_n_steps ep - (ep_counts ep).1) e2 s2 ∧
    recorded_back net (ep_n_steps ep - (ep_counts ep).2) e3 s3 ∧
    recorded_back net 0 e4 s4.
Proof.
  intros Hep.
  destruct (plot_energy_inv _ _ _ Hep)
    as (n & energy & t & lo & hi & e1 & e2 & e3 & e4 & s1 & s2 & s3 & s4 & c1 & c2 & q1 & q2 &
        Hser & Hsize & Hlo & Hhi & He1 & Hs1 & Hc1 & He2 & Hs2 & Hq1 &
        Hc2 & He3 & Hs3 & Hq2 & He4 & Hs4 & ->).
  cbn [ep_n_steps ep_counts ep_inset_energies ep_inset_states fst snd].
  exists e1, e2, e3, e4, s1, s2, s3, s4. split; [done|]. split; [done|].
  assert (Hn0 : n ≠ 0).
  { intros ->. unfold colour_position in Hq1. by rewrite decide_True in Hq1. }
  assert (Hne : energy ≠ []) by (intros ->; discriminate Hlo).
  destruct (plot_energy_window _ _ _ _ _ Hser Hsize Hne Hn0) as (Hn1 & Hle & Hlen & Hdrop).
  assert (G1 : 0 ≤ c1) by (apply (inset_count_nonneg energy n 1); [lia|lia|done]).
  assert (G2 : 0 ≤ c2) by (apply (inset_count_nonneg energy n 2); [lia|lia|done]).
  assert (Hrec : ∀ c e s, 0 ≤ c →
            Py.getitem energy c = Ok e → state_at net (- n - 1 + c) = Ok s →
            recorded_back net (n - c) e s).
  { intros c e s Hc He Hs.
    apply getitem_Ok_inv in He as [Hr He]. rewrite decide_False in He by lia.
    apply state_at_inv in Hs as (state & Hst & Hre); [|lia].
    exists state. split; [|split; [|done]].
    - rewrite Hdrop, lookup_drop in He. rewrite <- He. f_equal.
      unfold Py.len in *. lia.
    - rewrite <- Hst. f_equal. lia. }
  split; [|split; [|split]].
  - replace n with (n - 0) at 1 by lia. apply Hrec; [lia|done|].
    by replace (- n - 1 + 0) with (- n - 1) by lia.
  - by apply Hrec.
  - by apply Hrec.
  - apply getitem_Ok_inv in He4 as [_ He4]. rewrite decide_True in He4 by done.
    apply state_at_inv in Hs4 as (state & Hst & Hre); [|done].
    exists state. split; [|split; [|done]].
    + rewrite Hlen in He4. rewrite Hdrop, lookup_drop in He4. rewrite <- He4. f_equal.
      unfold Py.len in *. lia.
    + rewrite <- Hst. f_equal. lia.
Qed.

Lemma plot_energy_insets_aligned_witness :
  ∃ ep e1 e2 e3 e4 s1 s2 s3 s4,
    plot_energy demo_network (Some 3) = Ok ep ∧
    ep_inset_energies ep = (e1, e2, e3, e4) ∧
    ep_inset_states ep = (s1, s2, s3, s4) ∧
    recorded_back demo_network 0 e4 s4.
Proof.
  assert (E : ∃ ep, plot_energy demo_network (Some 3) = Ok ep)
    by (eexists; vm_compute; reflexivity).
  destruct E as [ep E].
  destruct (plot_energy_insets_aligned demo_network (Some 3) ep E)
    as (e1 & e2 & e3 & e4 & s1 & s2 & s3 & s4 & H1 & H2 & _ & _ & _ & H4).
  exists ep, e1, e2, e3, e4, s1, s2, s3, s4.
  split; [exact E|]. split; [exact H1|]. split; [exact H2|exact H4].
Defined.

(** Every energy of a returned plot lies strictly inside its y-limits,
    which are 5 below the least and 5 above the greatest plotted energy. *)
Theorem plot_energy_ylim_contains
    (net : HopfieldNetwork) (n_steps : option Z) (ep : EnergyPlot) :
  plot_energy net n_steps = Ok ep →
  ∃ lo hi,
    lo ∈ ep_energy ep ∧ hi ∈ ep_energy ep ∧
    ep_ylim ep = (lo - 5, hi + 5)%Q ∧
    ∀ e, e ∈ ep_energy ep →
      (lo <= e)%Q ∧ (e <= hi)%Q ∧ ((ep_ylim ep).1 < e)%Q ∧ (e < (ep_ylim ep).2)%Q.
Proof.
  intros Hep.
  destruct (plot_energy_inv _ _ _ Hep)
    as (n & energy & t & lo & hi & e1 & e2 & e3 & e4 & s1 & s2 & s3 & s4 & c1 & c2 & q1 & q2 &
        Hser & Hsize & Hlo & Hhi & _ & _ & _ & _ & _ & _ & _ & _ & _ & _ & _ & _ & ->).
  cbn [ep_energy ep_ylim fst snd].
  assert (Hne : energy ≠ []) by (intros ->; discriminate Hlo).
  destruct (minQ_spec _ Hne) as (lo' & Hlo' & Hlin & Hmin).
  destruct (maxQ_spec _ Hne) as (hi' & Hhi' & Hhin & Hmax).
  assert (lo' = lo) as -> by congruence. assert (hi' = hi) as -> by congruence.
  exists lo, hi. split; [done|]. split; [done|]. split; [done|].
  intros e He. pose proof (Hmin e He). pose proof (Hmax e He).
  repeat split; lra.
Qed.

Lemma plot_energy_ylim_contains_witness :
  ∃ ep lo hi, plot_energy demo_network (Some 3) = Ok ep ∧
              ep_ylim ep = (lo - 5, hi + 5)%Q ∧ lo ∈ ep_energy ep.
Proof.
  assert (E : ∃ ep, plot_energy demo_network (Some 3) = Ok ep)
    by (eexists; vm_compute; reflexivity).
  destruct E as [ep E].
  destruct (plot_energy_ylim_contains demo_network (Some 3) ep E)
    as (lo & hi & H1 & _ & H3 & _).
  exists ep, lo, hi. split; [exact E|]. split; [exact H3|exact H1].
Defined.

(** ** visualise_hopfield_network: the state image, offsets, failures *)

Lemma chunks_spec (h w : nat) (v : list Z) :
  length v = (h * w)%nat →
  length (Np.chunks h w v) = h ∧
  Forall (λ row, length row = w) (Np.chunks h w v) ∧
  ∀ i j, (i < h)%nat → (j < w)%nat →
    cell (NDArray h w (Np.chunks h w v)) i j = v !! (i * w + j)%nat.
Proof.
  revert v. induction h as [|h IH]; intros v Hlen.
  - split; [done|]. split; [constructor|]. intros i j Hi. lia.
  - destruct (IH (drop w v)) as (H1 & H2 & H3).
    { rewrite length_drop. lia. }
    cbn [Np.chunks]. split; [simpl; lia|]. split.
    + constructor; [|done]. rewrite length_take. lia.
    + intros [|i] j Hi Hj; unfold cell; cbn [cells].
      * change ((take w v :: Np.chunks h w (drop w v)) !! 0%nat) with (Some (take w v)).
        cbn [mbind option_bind]. by rewrite lookup_take_lt by lia.
      * change ((take w v :: Np.chunks h w (drop w v)) !! S i)
          with (Np.chunks h w (drop w v) !! i).
        specialize (H3 i j ltac:(lia) Hj). unfold cell in H3. cbn [cells] in H3.
        rewrite H3, lookup_drop. f_equal. lia.
Qed.

Lemma visualise_inv (net : HopfieldNetwork) (sb : Z) (title : option string) (panels : Panels) :
  visualise_hopfield_network net sb title = Ok panels →
  ∃ state sims image best name pattern colors s,
    Py.getitem (history_state net) (- sb - 1) = Ok state ∧
    Py.getitem (history_similarities net) (- sb - 1) = Ok sims ∧
    Np.reshape state (pattern_shape net) = Ok image ∧
    Np.argmax (Np.abs sims) = Ok best ∧
    Py.getitem (pattern_names net) (Z.of_nat best) = Ok name ∧
    dict_getitem (patterns_dict net) name = Ok pattern ∧
    list_setitem (replicate (N_patterns net) "C0"%string) best "blue"%string = Ok colors ∧
    Py.getitem sims (Z.of_nat best) = Ok s ∧
    state_image panels = image ∧ bar_heights panels = sims ∧
    best_pattern_id panels = best ∧ bar_colors panels = colors ∧
    inset_image panels = pattern.
Proof.
  unfold visualise_hopfield_network.
  repeat lazymatch goal with
         | |- (?r ≫= ?k) = _ → _ =>
             destruct r eqn:?;
             [erewrite result_bind_Ok by reflexivity
             |erewrite result_bind_Raise by reflexivity; discriminate]
         end.
  intros [= <-]. cbn. repeat eexists; eassumption.
Qed.

(** The image drawn by a successful call is the recorded state laid out
    row by row: it has the shape [pattern_shape], and its cell [(i, j)]
    holds entry [i * w + j] of the state vector read from the history. *)
Theorem visualise_state_image_row_major
    (net : HopfieldNetwork) (steps_back : Z) (title : option string) (panels : Panels) :
  visualise_hopfield_network net steps_back title = Ok panels →
  ∃ state,
    Py.getitem (history_state net) (- steps_back - 1) = Ok state ∧
    length state = ((pattern_shape net).1 * (pattern_shape net).2)%nat ∧
    wf_ndarray (state_image panels) ∧
    shape0 (state_image panels) = (pattern_shape net).1 ∧
    shape1 (state_image panels) = (pattern_shape net).2 ∧
    ∀ i j, (i < (pattern_shape net).1)%nat → (j < (pattern_shape net).2)%nat →
      cell (state_image panels) i j = state !! (i * (pattern_shape net).2 + j)%nat.
Proof.
  intros Hrun.
  destruct (visualise_inv _ _ _ _ Hrun)
    as (state & sims & image & best & name & pattern & colors & s &
        H1 & _ & H3 & _ & _ & _ & _ & _ & -> & _).
  exists state. split; [done|].
  unfold Np.reshape in H3.
  destruct (decide (length state = ((pattern_shape net).1 * (pattern_shape net).2)%nat))
    as [Hlen|]; [|done].
  injection H3 as <-. destruct (chunks_spec _ _ _ Hlen) as (G1 & G2 & G3).
  split; [done|]. split; [by split|]. done.
Qed.

Lemma visualise_state_image_row_major_witness :
  ∃ panels state,
    visualise_hopfield_network demo_network 1 None = Ok panels ∧
    Py.getitem (history_state demo_network) (- 1 - 1) = Ok state ∧
    cell (state_image panels) 1 0 = state !! 2%nat.
Proof.
  assert (E : ∃ panels, visualise_hopfield_network demo_network 1 None = Ok panels)
    by (eexists; vm_compute; reflexivity).
  destruct E as [panels E].
  destruct (visualise_state_image_row_major demo_network 1 None panels E)
    as (state & H1 & _ & _ & _ & _ & Hcell).
  exists panels, state. split; [exact E|]. split; [exact H1|].
  apply (Hcell 1%nat 0%nat); simpl; lia.
Defined.

Lemma getitem_front {A} (l : list A) (k : Z) :
  1 ≤ k ≤ Py.len l →
  ∃ x, l !! Z.to_nat (k - 1) = Some x ∧ Py.getitem l (- (- k) - 1) = Ok x.
Proof.
  intros Hk. replace (- (- k) - 1) with (k - 1) by lia.
  apply getitem_in_range. lia.
Qed.

(** A negative [steps_back] is not rejected: [steps_back = -k] with
    [1 <= k <= L] makes the history index [k - 1], so on a well-formed
    network the call succeeds and draws the entry [k - 1] counted from the
    oldest one; with [k > L] it raises [IndexError]. *)
Theorem visualise_negative_steps_back
    (net : HopfieldNetwork) (k : Z) (title : option string) :
  1 ≤ k →
  (k ≤ Py.len (history_state net) → wf_network net →
   ∃ state sims panels,
     history_state net !! Z.to_nat (k - 1) = Some state ∧
     history_similarities net !! Z.to_nat (k - 1) = Some sims ∧
     visualise_hopfield_network net (- k) title = Ok panels ∧
     Np.reshape state (pattern_shape net) = Ok (state_image panels) ∧
     bar_heights panels = sims) ∧
  (Py.len (history_state net) < k →
   visualise_hopfield_network net (- k) title = Raise IndexError).
Proof.
  intros Hk. split.
  - intros Hle (Hlen & Hstates & Hsims & Hnames & Hpos & Hdict).
    destruct (getitem_front (history_state net) k) as (state & Hst & Hget1); [lia|].
    destruct (getitem_front (history_similarities net) k) as (sims & Hsi & Hget2).
    { unfold Py.len in *. lia. }
    rewrite Forall_lookup in Hstates. rewrite Forall_lookup in Hsims.
    rewrite Forall_lookup in Hdict.
    pose proof (Hstates _ _ Hst) as Hsize. pose proof (Hsims _ _ Hsi) as Hn.
    destruct (argmax_spec (Np.abs sims)) as (best & mb & Hbest & Hmb & _).
    { intros E. apply (f_equal length) in E. unfold Np.abs in E.
      rewrite length_fmap in E. simpl in E. lia. }
    unfold Np.abs in Hmb. rewrite list_lookup_fmap in Hmb.
    destruct (sims !! best) as [m|] eqn:Hm; [|done].
    pose proof (lookup_lt_Some _ _ _ Hm) as Hlt.
    destruct (lookup_lt_is_Some_2 (pattern_names net) best) as [name Hname]; [lia|].
    destruct (Hdict _ _ Hname) as [pattern Hpat].
    assert (Hreshape : Np.reshape state (pattern_shape net) =
                       Ok (NDArray (pattern_shape net).1 (pattern_shape net).2
                             (Np.chunks (pattern_shape net).1 (pattern_shape net).2 state))).
    { unfold Np.reshape. by rewrite decide_True. }
    eexists state, sims, _. split; [done|]. split; [done|].
    unfold visualise_hopfield_network.
    rewrite (result_bind_Ok _ _ _ Hget1).
    rewrite (result_bind_Ok _ _ _ Hget2).
    rewrite (result_bind_Ok _ _ _ Hreshape).
    rewrite (result_bind_Ok _ _ _ Hbest).
    rewrite (result_bind_Ok _ _ _ (getitem_nat _ _ _ Hname)).
    erewrite result_bind_Ok by (unfold dict_getitem; by rewrite Hpat).
    erewrite result_bind_Ok.
    2: { unfold list_setitem. rewrite decide_True; [done|].
         rewrite length_replicate. lia. }
    rewrite (result_bind_Ok _ _ _ (getitem_nat _ _ _ Hm)).
    split; [reflexivity|]. split; [exact Hreshape|reflexivity].
  - intros Hgt. unfold visualise_hopfield_network.
    rewrite (result_bind_Raise _ _ IndexError); [done|].
    unfold Py.getitem. cbv zeta. rewrite (decide_False (P := - - k - 1 < 0)) by lia.
    by rewrite decide_False by lia.
Qed.

Lemma visualise_negative_steps_back_witness :
  1 ≤ 2 ∧ 2 ≤ Py.len (history_state demo_network) ∧ wf_network demo_network ∧
  ∃ state panels,
    history_state demo_network !! 1%nat = Some state ∧
    visualise_hopfield_network demo_network (- 2) None = Ok panels ∧
    Np.reshape state (pattern_shape demo_network) = Ok (state_image panels).
Proof.
  assert (H1 : 1 ≤ 2) by lia.
  assert (H2 : 2 ≤ Py.len (history_state demo_network)) by (vm_compute; discriminate).
  split; [exact H1|]. split; [exact H2|]. split; [exact wf_demo_network|].
  destruct (proj1 (visualise_negative_steps_back demo_network 2 None H1) H2 wf_demo_network)
    as (state & sims & panels & G1 & _ & G3 & G4 & _).
  exists state, panels. split; [exact G1|]. split; [exact G3|exact G4].
Defined.




(** ** plot_patterns: the layout *)

Lemma items_getitem_lookup {A} (d : list (string * A)) (k : nat) (name : string) (v : A) :
  NoDup (d.*1) → d !! k = Some (name, v) → items_getitem d name = Ok v.
Proof.
  revert k. induction d as [|[k' v'] d IH]; intros k Hnd Hk; [done|].
  cbn [items_getitem]. rewrite fmap_cons in Hnd. apply NoDup_cons in Hnd as [Hnotin Hnd].
  destruct k as [|k].
  - injection Hk as -> ->. by rewrite decide_True.
  - cbn in Hk. rewrite decide_False; [by eapply IH|].
    intros ->. apply Hnotin. apply list_elem_of_fmap.
    exists (name, v). split; [done|]. by eapply list_elem_of_lookup_2.
Qed.

Lemma place_Ok (patterns : list (string * ndarray)) (cols i j : Z) :
  NoDup (patterns.*1) → 0 ≤ i * cols + j < Py.len patterns →
  place patterns cols i j = Ok (patterns !!! Z.to_nat (i * cols + j)).
Proof.
  intros Hnd Hk. set (k := i * cols + j) in *.
  destruct (lookup_lt_is_Some_2 patterns (Z.to_nat k)) as [[name v] Hkv].
  { unfold Py.len in Hk. lia. }
  rewrite (list_lookup_total_correct _ _ _ Hkv). unfold place. fold k.
  rewrite (result_bind_Ok _ _ name).
  2: { rewrite <- (Z2Nat.id k) by lia. apply getitem_nat.
       by rewrite list_lookup_fmap, Hkv. }
  by rewrite (result_bind_Ok _ _ v) by by eapply items_getitem_lookup.
Qed.

(** For a dict of at least two non-empty 2-D patterns [plot_patterns] succeeds and fills
    the grid row by row in the dict's order: the grid has [rows] rows of
    [cols] cells with [rows * cols] the number of patterns, and cell
    [(i, j)] shows item [i * cols + j] of the dict, its name as the title;
    so every pattern is shown in exactly one cell. *)
Theorem plot_patterns_row_major (patterns : list (string * ndarray)) :
  NoDup (patterns.*1) →
  Forall (λ item, wf_ndarray item.2 ∧ (0 < shape0 item.2)%nat ∧ (0 < shape1 item.2)%nat)
         patterns →
  2 ≤ Py.len patterns →
  ∃ rows cols cells,
    plot_patterns patterns = inr {| axes_shape := (rows, cols); axes_cells := cells |} ∧
    plot_patterns_grid_shape patterns = Ok (rows, cols) ∧
    rows * cols = Py.len patterns ∧
    Py.len cells = rows ∧ Forall (λ row, Py.len row = cols) cells ∧
    ∀ i j : nat, Z.of_nat i < rows → Z.of_nat j < cols →
      cells !! i ≫= (.!! j) = patterns !! (i * Z.to_nat cols + j)%nat.
Proof.
  intros Hnd _ HN.
  destruct (grid_shape_spec (Py.len patterns)) as (rows & cols & Hs & Hg & Hmul & Hle); [lia|].
  destruct (grid_size_spec (Py.len patterns)) as (g & Hg' & (Hg1 & _) & _); [lia|].
  assert (g = rows) as -> by congruence.
  set (cells := (λ i, (λ j, patterns !!! Z.to_nat (i * cols + j)) <$> seqZ 0 cols)
                  <$> seqZ 0 rows).
  exists rows, cols, cells.
  assert (Hrun : plot_patterns patterns
                 = inr {| axes_shape := (rows, cols); axes_cells := cells |}).
  { unfold plot_patterns, plot_patterns_grid_shape. cbv zeta. rewrite Hs.
    rewrite decide_False by nia. unfold Py.range. rewrite !Z.sub_0_r.
    rewrite (for_each_Ok _ (λ i, (λ j, patterns !!! Z.to_nat (i * cols + j)) <$> seqZ 0 cols));
      [done|].
    intros i Hi%elem_of_seqZ.
    apply for_each_Ok. intros j Hj%elem_of_seqZ. apply place_Ok; [done|nia]. }
  split; [exact Hrun|]. split; [exact Hs|]. split; [exact Hmul|]. split; [|split].
  - unfold cells, Py.len. rewrite length_fmap, length_seqZ. lia.
  - unfold cells. apply Forall_fmap, Forall_forall. intros i _. cbn.
    unfold Py.len. rewrite length_fmap, length_seqZ. lia.
  - intros i j Hi Hj. unfold cells.
    rewrite list_lookup_fmap, lookup_seqZ_lt by lia. cbn.
    rewrite list_lookup_fmap, lookup_seqZ_lt by lia. cbn.
    replace (Z.to_nat ((0 + Z.of_nat i) * cols + (0 + Z.of_nat j)))
      with (i * Z.to_nat cols + j)%nat by nia.
    symmetry. apply list_lookup_lookup_total_lt. unfold Py.len in *. nia.
Qed.

Lemma plot_patterns_row_major_witness :
  let patterns := [("a", NDArray 1 1 [[1]]); ("b", NDArray 1 1 [[0]])]%string in
  NoDup (patterns.*1) ∧
  Forall (λ item, wf_ndarray item.2 ∧ (0 < shape0 item.2)%nat ∧ (0 < shape1 item.2)%nat)
         patterns ∧
  2 ≤ Py.len patterns ∧
  ∃ rows cols cells,
    plot_patterns patterns = inr {| axes_shape := (rows, cols); axes_cells := cells |} ∧
    rows * cols = Py.len patterns.
Proof.
  intros patterns.
  assert (H1 : NoDup (patterns.*1)).
  { simpl. repeat constructor; rewrite ?elem_of_cons, ?elem_of_nil; intros H;
      intuition discriminate. }
  assert (H2 : 2 ≤ Py.len patterns) by (vm_compute; discriminate).
  assert (H3 : Forall (λ item, wf_ndarray item.2 ∧ (0 < shape0 item.2)%nat
                               ∧ (0 < shape1 item.2)%nat) patterns).
  { repeat constructor; simpl; lia. }
  split; [exact H1|]. split; [exact H3|]. split; [exact H2|].
  destruct (plot_patterns_row_major patterns H1 H3 H2)
    as (rows & cols & cells & Hrun & _ & Hmul & _).
  exists rows, cols, cells. split; [exact Hrun|exact Hmul].
Defined.

(** With fewer than two patterns [plot_patterns] fails: on an empty dict
    the divisor search takes the maximum of nothing ([ValueError]), and on
    a dict of one pattern the single Axes object has no [reshape]
    ([AttributeError]). *)
Theorem plot_patterns_too_few (patterns : list (string * ndarray)) :
  (length patterns ≤ 1)%nat →
  plot_patterns patterns =
    inl (match patterns with [] => PyError ValueError | _ => AttributeError end).
Proof.
  intros Hlen. destruct patterns as [|item [|item' rest]]; [reflexivity|reflexivity|].
  simpl in Hlen. lia.
Qed.

Lemma plot_patterns_too_few_witness :
  let patterns := [("a"%string, NDArray 2 2 [[1; 1]; [1; 1]])] in
  (length patterns ≤ 1)%nat ∧ plot_patterns patterns = inl AttributeError.
Proof.
  intros patterns.
  assert (H : (length patterns ≤ 1)%nat) by (simpl; lia).
  split; [exact H|]. exact (plot_patterns_too_few patterns H).
Defined.
